(** * Login throttling of the authentication controller

    A shallow embedding of [login] from
    [src/api/components/authentication/authentication-controller.js]
    together with the module-level state it closes over:

    - [failedLoginAttempts], the object mapping an e-mail to its number
      of failed logins,
    - the callbacks registered with [setTimeout],
    - the awaited call to [authenticationServices.checkLoginCredentials].

    The handler is written in a small state-and-exception monad so that
    its body reads like the JavaScript.  Every effect the handler performs
    is appended to a log kept in the state, which is what statements such
    as "the credential lookup is not invoked" are phrased over.

    Modelling conventions.
    - Keys of [failedLoginAttempts] are e-mail addresses (the route
      validates the request body), so no key names a property inherited
      from [Object.prototype] and a missing key reads as [undefined].
    - The counters are JavaScript numbers holding small integers; they are
      integers of [Z] here.
    - One call of [login] runs to completion: the awaited service call is
      answered before anything else happens.  The section [Await]
      splits the handler at its [await] for requests that overlap. *)

From Stdlib Require Import ZArith List Lia.
From stdpp Require Import gmap strings list fin_maps.

Local Open Scope Z_scope.

(** ** Errors and responses *)

(** The members of [errorTypes] the controllers name. *)
Inductive errorType : Type :=
  | EMAIL_ALREADY_TAKEN
  | FORBIDDEN
  | INVALID_CREDENTIALS
  | INVALID_PASSWORD
  | UNPROCESSABLE_ENTITY.

(** A thrown value: the result of [errorResponder(type, message)], or a
    plain [new Error(message)] such as the services raise. *)
Inductive error : Type :=
  | errorResponder (type : errorType) (message : string)
  | Error (message : string).

(** The two things [login] can do with the request: answer it with a
    status and a JSON body, or pass an error to the next middleware. *)
Inductive response (Body : Type) : Type :=
  | Json (status : Z) (body : Body)
  | Next (e : error).
Arguments Json {Body} status body.
Arguments Next {Body} e.

(** ** The state the handler closes over *)

(** Effects in the order they happen, most recent first. *)
Inductive effect : Type :=
  | Lookup (email password : string)     (* checkLoginCredentials(email, password) *)
  | Write (email : string) (value : Z)   (* failedLoginAttempts[email] = value *)
  | SetTimeout (email : string) (delay : Z)
  | TimerFired (email : string).

(** A pending [setTimeout] callback: when it is due and the [email] its
    closure captured. *)
Record timer : Type := Timer {
  timer_due : Z;
  timer_email : string;
}.

Record world : Type := World {
  failedLoginAttempts : gmap string Z;
  timers : list timer;
  clock : Z;                              (* milliseconds *)
  log : list effect;
}.

Definition loginAttemptResetTime : Z := 30 * 60 * 1000.

Definition initial : world :=
  {| failedLoginAttempts := ∅; timers := []; clock := 0; log := [] |}.

(** ** A state-and-exception monad *)

Inductive completion (A : Type) : Type :=
  | Normal (a : A)
  | Thrown (e : error).
Arguments Normal {A} a.
Arguments Thrown {A} e.

Definition M (A : Type) : Type := world -> completion A * world.

Definition ret {A} (a : A) : M A := fun w => (Normal a, w).

Definition throw {A} (e : error) : M A := fun w => (Thrown e, w).

Definition bind {A B} (m : M A) (k : A -> M B) : M B :=
  fun w =>
    match m w with
    | (Normal a, w') => k a w'
    | (Thrown e, w') => (Thrown e, w')
    end.

Definition try_catch {A} (body : M A) (handler : error -> M A) : M A :=
  fun w =>
    match body w with
    | (Normal a, w') => (Normal a, w')
    | (Thrown e, w') => handler e w'
    end.

Declare Scope js_scope.
Delimit Scope js_scope with js.
Notation "x <- m ;; k" := (bind m (fun x => k))
  (at level 100, m at level 99, k at level 200, right associativity) : js_scope.
Notation "m ;;; k" := (bind m (fun _ => k))
  (at level 100, k at level 200, right associativity) : js_scope.
Local Open Scope js_scope.

(** ** Primitive operations *)

(** [v || 0] on a property read: [undefined] and [0] both give [0]. *)
Definition or_zero (v : option Z) : Z :=
  match v with
  | None => 0
  | Some n => if n =? 0 then 0 else n
  end.

(** [failedLoginAttempts[email] || 0] *)
Definition read_attempts (email : string) : M Z :=
  fun w => (Normal (or_zero (failedLoginAttempts w !! email)), w).

(** [failedLoginAttempts[email] = value] *)
Definition write_attempts (email : string) (value : Z) : M unit :=
  fun w =>
    (Normal tt,
     {| failedLoginAttempts := <[email := value]> (failedLoginAttempts w);
        timers := timers w;
        clock := clock w;
        log := Write email value :: log w |}).

(** [setTimeout(() => { failedLoginAttempts[email] = 0; }, delay)] *)
Definition setTimeout_reset (email : string) (delay : Z) : M unit :=
  fun w =>
    (Normal tt,
     {| failedLoginAttempts := failedLoginAttempts w;
        timers := timers w ++ [Timer (clock w + delay) email];
        clock := clock w;
        log := SetTimeout email delay :: log w |}).

(** What awaiting [checkLoginCredentials] can give: a value, which the
    controller only tests for truthiness ([None] is a falsy value such as
    [null], [Some b] a truthy one), or a thrown error. *)
Inductive reply (Body : Type) : Type :=
  | Returns (v : option Body)
  | Throws (e : error).
Arguments Returns {Body} v.
Arguments Throws {Body} e.

Definition service (Body : Type) : Type := string -> string -> reply Body.

(** [await authenticationServices.checkLoginCredentials(email, password)] *)
Definition checkLoginCredentials {Body} (svc : service Body)
    (email password : string) : M (option Body) :=
  fun w =>
    let w' := {| failedLoginAttempts := failedLoginAttempts w;
                 timers := timers w;
                 clock := clock w;
                 log := Lookup email password :: log w |} in
    match svc email password with
    | Returns v => (Normal v, w')
    | Throws e => (Thrown e, w')
    end.

(** ** The handler *)

Definition tooManyAttempts : error :=
  errorResponder FORBIDDEN
    "Too many failed login attempts. Try again later 30min.".

Definition wrongEmailOrPassword : error :=
  errorResponder INVALID_CREDENTIALS "Wrong email or password".

Definition login {Body} (svc : service Body) (email password : string)
    : M (response Body) :=
  try_catch
    (loginAttempts <- read_attempts email ;;
     (if 5 <=? loginAttempts then throw tooManyAttempts else ret tt) ;;;
     loginSuccess <- checkLoginCredentials svc email password ;;
     match loginSuccess with
     | None =>
         write_attempts email (loginAttempts + 1) ;;;
         throw wrongEmailOrPassword
     | Some body =>
         write_attempts email 0 ;;;
         setTimeout_reset email loginAttemptResetTime ;;;
         ret (Json 200 body)
     end)
    (fun error => ret (Next error)).

(** ** Reading the state *)

(** The failure count the handler sees for [email]. *)
Definition failureCount (w : world) (email : string) : Z :=
  or_zero (failedLoginAttempts w !! email).

(** The lockout test of the handler, [loginAttempts >= 5]. *)
Definition isLocked (w : world) (email : string) : bool :=
  5 <=? failureCount w email.

(** The effects performed between [w] and a later [w']. *)
Definition performed (w w' : world) : list effect :=
  take (length (log w') - length (log w))%nat (log w').

Definition is_write (e : effect) : bool :=
  match e with
  | Write _ _ => true
  | _ => false
  end.

Definition is_lookup (e : effect) : bool :=
  match e with
  | Lookup _ _ => true
  | _ => false
  end.

(** Number of assignments to [failedLoginAttempts] among some effects. *)
Definition mutations (es : list effect) : nat :=
  length (List.filter is_write es).

Definition lookups (es : list effect) : nat :=
  length (List.filter is_lookup es).

(** ** The passage of time *)

Definition is_due (now : Z) (t : timer) : bool := timer_due t <=? now.

(** The body of the callback: [failedLoginAttempts[email] = 0]. *)
Definition fire (w : world) (t : timer) : world :=
  {| failedLoginAttempts := <[timer_email t := 0]> (failedLoginAttempts w);
     timers := timers w;
     clock := clock w;
     log := TimerFired (timer_email t) :: log w |}.

(** [dt] milliseconds pass with no request being handled: the callbacks
    that have become due run, in the order they were registered, and are
    gone afterwards. *)
Definition elapse (dt : Z) (w : world) : world :=
  let now := clock w + dt in
  let due := List.filter (is_due now) (timers w) in
  let pending := List.filter (fun t => negb (is_due now t)) (timers w) in
  let w' := fold_left fire due w in
  {| failedLoginAttempts := failedLoginAttempts w';
     timers := pending;
     clock := now;
     log := log w' |}.

(** ** Sequences of requests and waits *)

Inductive step (Body : Type) : Type :=
  | Request (svc : service Body) (email password : string)
  | Wait (dt : Z).
Arguments Request {Body} svc email password.
Arguments Wait {Body} dt.

Definition exec {Body} (s : step Body) (w : world) : world :=
  match s with
  | Request svc email password => snd (login svc email password w)
  | Wait dt => elapse dt w
  end.

Definition run {Body} (ss : list (step Body)) (w : world) : world :=
  fold_left (fun w s => exec s w) ss w.

(** ** The credential service

    [authentication-service.js] is not part of the sources read here; the
    controller only sees what the awaited call gives back.  Where a
    statement distinguishes an unknown identifier from a wrong password,
    the service is the one below. *)

Record CredentialRecord : Type := {
  identifier : string;
  passwordHash : string;
  attributes : list (string * string);
}.

Record Profile : Type := {
  profile_identifier : string;
  profile_attributes : list (string * string);
}.

Inductive lookupResult : Type :=
  | Found (r : CredentialRecord)
  | NotFound
  | Unavailable (e : error).

Definition publicProfile (r : CredentialRecord) : Profile :=
  {| profile_identifier := identifier r;
     profile_attributes := attributes r |}.

(** Modelled from the spec: [checkLoginCredentials] of the missing
    [authentication-service.js].  It resolves the credential record with
    the Credential Lookup; an absent record and a plaintext the Password
    Verifier rejects against the stored hash are both a rejection;
    otherwise the result is the user's public profile, without the hash.
    A failure of the lookup itself is propagated. *)
Definition specCheckLoginCredentials
    (lookupByIdentifier : string -> lookupResult)
    (verify : string -> string -> bool) : service Profile :=
  fun email password =>
    match lookupByIdentifier email with
    | Unavailable e => Throws e
    | NotFound => Returns None
    | Found r =>
        if verify password (passwordHash r)
        then Returns (Some (publicProfile r))
        else Returns None
    end.

(** *** A small credential store to run the handler on *)

Definition alice : CredentialRecord :=
  {| identifier := "a@x.com";
     passwordHash := "#secret";
     attributes := [("name", "Alice")] |}.

Definition oneUser (email : string) : lookupResult :=
  if String.eqb email "a@x.com" then Found alice else NotFound.

Definition prefixHash (plaintext storedHash : string) : bool :=
  String.eqb ("#" ++ plaintext) storedHash.

Definition demo : service Profile := specCheckLoginCredentials oneUser prefixHash.

(** A service whose storage is down. *)
Definition outage : service Profile :=
  specCheckLoginCredentials (fun _ => Unavailable (Error "storage unavailable"))
                            prefixHash.

(** Five wrong guesses for "a@x.com" on a fresh server, and the state
    they leave behind. *)
Definition fiveFailures : list (step Profile) :=
  replicate 5 (Request demo "a@x.com" "guess").

Definition lockedOut : world := run fiveFailures initial.

(** Three wrong guesses for "a@x.com" on a fresh server. *)
Definition threeFailures : world :=
  run (replicate 3 (Request demo "a@x.com" "guess")) initial.

(** ** The handler split at its [await]

    [login] suspends once, at the call of the service, holding the
    [loginAttempts] it read before.  Other requests and timer callbacks
    can run before it resumes. *)

Section Await.
Context {Body : Type}.

(** A request waiting for the service: its [email] and the value of
    its local [loginAttempts]. *)
Record inflight : Type := Inflight {
  inflight_email : string;
  inflight_attempts : Z;
}.

(** Lines 20-34: up to the point where the service has been called. *)
Definition login_until_await (email password : string) (w : world)
    : (response Body + inflight) * world :=
  let loginAttempts := or_zero (failedLoginAttempts w !! email) in
  if 5 <=? loginAttempts then (inl (Next tooManyAttempts), w)
  else (inr (Inflight email loginAttempts),
        {| failedLoginAttempts := failedLoginAttempts w;
           timers := timers w;
           clock := clock w;
           log := Lookup email password :: log w |}).

(** Lines 36-58: from the service's answer to the response. *)
Definition login_after_await (k : inflight) (r : reply Body) (w : world)
    : response Body * world :=
  let email := inflight_email k in
  match r with
  | Throws e => (Next e, w)
  | Returns None =>
      (Next wrongEmailOrPassword,
       {| failedLoginAttempts :=
            <[email := inflight_attempts k + 1]> (failedLoginAttempts w);
          timers := timers w;
          clock := clock w;
          log := Write email (inflight_attempts k + 1) :: log w |})
  | Returns (Some body) =>
      (Json 200 body,
       {| failedLoginAttempts := <[email := 0]> (failedLoginAttempts w);
          timers := timers w ++ [Timer (clock w + loginAttemptResetTime) email];
          clock := clock w;
          log := SetTimeout email loginAttemptResetTime
                   :: Write email 0 :: log w |})
  end.

(** The server between two turns of the event loop: the shared state
    and the requests that are waiting for the service. *)
Record server : Type := Server {
  shared : world;
  waiting : list inflight;
}.

Inductive turn : Type :=
  | Arrive (email password : string)
  | Resume (i : nat) (r : reply Body)
  | Idle (dt : Z).

Definition turn_exec (t : turn) (s : server) : server :=
  match t with
  | Arrive email password =>
      match login_until_await email password (shared s) with
      | (inl _, w') => Server w' (waiting s)
      | (inr k, w') => Server w' (waiting s ++ [k])
      end
  | Resume i r =>
      match waiting s !! i with
      | None => s
      | Some k =>
          Server (snd (login_after_await k r (shared s)))
                 (delete i (waiting s))
      end
  | Idle dt => Server (elapse dt (shared s)) (waiting s)
  end.

Definition turns (ts : list turn) (s : server) : server :=
  fold_left (fun s t => turn_exec t s) ts s.

End Await.

(** ** Invariants *)

(** Every stored counter lies between 0 and the lockout threshold. *)
Definition bounded (m : gmap string Z) : Prop :=
  map_Forall (fun _ n => 0 <= n <= 5) m.

(** The same for a server with suspended requests: each of them read a
    count below the threshold, or it would not have been suspended. *)
Definition server_bounded (s : server) : Prop :=
  bounded (failedLoginAttempts (shared s)) /\
  Forall (fun k => 0 <= inflight_attempts k < 5) (waiting s).

(** No pending callback would reset the counter of [email]. *)
Definition no_timer_for (email : string) (w : world) : Prop :=
  Forall (fun t => timer_email t <> email) (timers w).

(** No request for [email] is suspended at the [await]. *)
Definition no_request_for (email : string) (s : server) : Prop :=
  Forall (fun k => inflight_email k <> email) (waiting s).

(** ** Statements that are tested against the handler *)

(** "Every call performs exactly one mutation of the counters, except a
    call short-circuited by lockout, which performs none." *)
Definition one_mutation_unless_locked {Body} (svc : service Body)
    (email password : string) (w : world) : Prop :=
  mutations (performed w (snd (login svc email password w))) =
    if isLocked w email then 0%nat else 1%nat.

(** "After the reset window has passed since a failed login on a fresh
    state, the failure count is back to 0." *)
Definition reset_after_failure {Body} (svc : service Body)
    (email password : string) : Prop :=
  failureCount
    (run [Request svc email password; Wait loginAttemptResetTime] initial)
    email = 0.

(** * The users component

    [users-controller.js] and [users-service.js].  Their collaborators
    ([users-repository.js], [utils/password.js] and the mongoose model
    [User]) are not among the sources: they are records of operations
    over a state of any type [S], so that everything stated below holds
    for every implementation of them.

    Conventions.
    - Identifiers, names, e-mails, passwords and phone numbers are
      strings; [page_number], [page_size] and document counts are integers
      (the query parameters denote integers, on which [parseInt] is the
      identity); where a zero [page_size] is divided by, [zero] tells
      which of the two zeros it is.
    - A function that returns [null] or [true] returns [false] or [true]
      here; its callers only test the result for truthiness. *)

Module Users.
Import Stdlib.Strings.Ascii.

(** ** Thrown values and effects *)

(** Besides the errors the code builds itself, the runtime raises a
    [TypeError] when a property of [null] is read. *)
Inductive exn : Type :=
  | Raised (e : error)
  | TypeError (message : string).

(** [error.message] *)
Definition message_of (x : exn) : string :=
  match x with
  | Raised (errorResponder _ message) => message
  | Raised (Error message) => message
  | TypeError message => message
  end.

Inductive result (A : Type) : Type :=
  | Ok (a : A)
  | Raise (x : exn).
Arguments Ok {A} a.
Arguments Raise {A} x.

Definition Eff (S A : Type) : Type := S -> result A * S.

Section Monad.
Context {S : Type}.

Definition ret {A} (a : A) : Eff S A := fun s => (Ok a, s).

Definition throw {A} (x : exn) : Eff S A := fun s => (Raise x, s).

Definition bind {A B} (m : Eff S A) (k : A -> Eff S B) : Eff S B :=
  fun s =>
    match m s with
    | (Ok a, s') => k a s'
    | (Raise x, s') => (Raise x, s')
    end.

Definition try_catch {A} (body : Eff S A) (handler : exn -> Eff S A)
    : Eff S A :=
  fun s =>
    match body s with
    | (Ok a, s') => (Ok a, s')
    | (Raise x, s') => handler x s'
    end.

End Monad.

Declare Scope eff_scope.
Delimit Scope eff_scope with eff.
Notation "x <- m ;; k" := (bind m (fun x => k))
  (at level 100, m at level 99, k at level 200, right associativity) : eff_scope.
Notation "m ;;; k" := (bind m (fun _ => k))
  (at level 100, k at level 200, right associativity) : eff_scope.
Local Open Scope eff_scope.

(** ** Documents *)

Record userDoc : Type := {
  user_id : string;
  user_name : string;
  user_email : string;
  user_password : string;
}.

Record minibankDoc : Type := {
  minibank_name : string;
  minibank_email : string;
  minibank_password : string;
  minibank_balance : Z;
  minibank_telp : string;
}.

(** ** Collaborators *)

(** [users-repository.js], as [users-service.js] calls it.  Results that
    the service ignores are [unit]; results it only tests for truthiness
    are [bool] or [option]. *)
Module Repository.
Section Ops.
Context {S : Type}.
Record t : Type := {
  getUsers : Z -> Z -> string -> option string -> Eff S (list userDoc);
  getUserCount : option string -> Eff S Z;
  getUser : string -> Eff S (option userDoc);
  createUser : string -> string -> string -> Eff S unit;
  updateUser : string -> string -> string -> Eff S unit;
  deleteUser : string -> Eff S unit;
  getUserByEmail : string -> Eff S (option userDoc);
  changePassword : string -> string -> Eff S bool;
  createUserMinibank : string -> string -> string -> Z -> string -> Eff S unit;
  getUserMinibankByEmail : string -> Eff S (option minibankDoc);
  getminibanktelp : string -> Eff S (option minibankDoc);
  changetelp : string -> string -> Eff S unit;
  deleteminibank : string -> Eff S bool;
}.
End Ops.
Arguments t S : clear implicits.
End Repository.

(** [utils/password.js] *)
Module Password.
Section Ops.
Context {S : Type}.
Record t : Type := {
  hashPassword : string -> Eff S string;
  passwordMatched : string -> string -> Eff S bool;
}.
End Ops.
Arguments t S : clear implicits.
End Password.

(** ** Numbers that need not be finite *)

Inductive number : Type :=
  | Num (z : Z)
  | Infinity
  | NegInfinity
  | NaN.

(** Which zero a number is when it is zero: JavaScript has two, [0] and
    [-0] (the query string ['-0'] denotes the latter).  They print and
    compare alike and differ only as divisors. *)
Inductive zeroSign : Type :=
  | PlusZero
  | MinusZero.

(** [Math.ceil(count / page_size)] on integers, [zero] telling which zero
    [page_size] is when it is zero.  For operands whose magnitudes add up
    to less than 2^53 the floating-point quotient lies strictly between
    the same two integers as the exact one, so the ceiling is exact.  A
    zero divisor gives [NaN] for a zero [count] and otherwise an
    infinity, whose sign is the sign of [count] for [0] and the opposite
    one for [-0]. *)
Definition ceil_quotient (zero : zeroSign) (count page_size : Z) : number :=
  if page_size =? 0 then
    if count =? 0 then NaN
    else match zero with
         | PlusZero => if 0 <? count then Infinity else NegInfinity
         | MinusZero => if 0 <? count then NegInfinity else Infinity
         end
  else Num (- ((- count) / page_size)).

(** [n < m] for an integer [n]. *)
Definition lt_number (n : Z) (m : number) : bool :=
  match m with
  | Num z => n <? z
  | Infinity => true
  | NegInfinity => false
  | NaN => false
  end.

(** ** Strings *)

(** [s.split(':')] *)
Fixpoint split_colon (s : string) : list string :=
  match s with
  | EmptyString => [EmptyString]
  | String c rest =>
      if Ascii.eqb c ":"%char then EmptyString :: split_colon rest
      else match split_colon rest with
           | first :: others => String c first :: others
           | [] => [String c EmptyString]
           end
  end.

(** Truthiness of a possibly [undefined] string. *)
Definition truthy (s : option string) : bool :=
  match s with
  | None => false
  | Some EmptyString => false
  | Some _ => true
  end.

(** [s] is not the empty string. *)
Definition nonempty (s : string) : bool :=
  match s with
  | EmptyString => false
  | String _ _ => true
  end.

(** No [':'] occurs in [s]. *)
Fixpoint colon_free (s : string) : bool :=
  match s with
  | EmptyString => true
  | String c rest => negb (Ascii.eqb c ":"%char) && colon_free rest
  end.

(** ** What the handlers and the service return *)

(** The object built by both [getUsers]. *)
Record page : Type := {
  page_number : Z;
  page_size : Z;
  count : Z;
  total_pages : number;
  has_previous_page : bool;
  has_next_page : bool;
  data : list userDoc;
}.

(** [{ id, name, email }] *)
Record userDetail : Type := {
  detail_id : string;
  detail_name : string;
  detail_email : string;
}.

(** The JSON bodies of the handlers. *)
Inductive body : Type :=
  | PageBody (p : page)
  | DetailBody (u : userDetail)
  | NameEmailBody (name email : string)       (* { name, email } *)
  | IdBody (id : string)                      (* { id } *)
  | TelpBody (telp : option string).          (* { telp }, [None] for null *)

(** A handler answers the request or passes an error to [next]. *)
Inductive answer : Type :=
  | Respond (status : Z) (b : body)
  | PassOn (x : exn).

(** Two errors several handlers throw. *)
Definition mismatched : exn :=
  Raised (errorResponder INVALID_PASSWORD "Password confirmation mismatched").

Definition emailTaken : exn :=
  Raised (errorResponder EMAIL_ALREADY_TAKEN "Email is already registered").

(** What both branches of [getminibanktelp] of the service throw. *)
Definition invalidEmailOrPassword : exn :=
  Raised (Error "Invalid email or password").

(** ** users-service.js *)

Module Service.
Section WithCollaborators.
Context {S : Type}.
Variable usersRepository : Repository.t S.
Variable passwordUtils : Password.t S.

(** [zero]: which zero [page_size] is, when it is zero. *)
Definition getUsers (zero : zeroSign) (page_number page_size : Z)
    (sort search : option string) : Eff S page :=
  let sort := default "email:asc" sort in
  try_catch
    (let skip := (page_number - 1) * page_size in
     users <- Repository.getUsers usersRepository page_size skip sort search ;;
     total_count <- Repository.getUserCount usersRepository search ;;
     let total_pages := ceil_quotient zero total_count page_size in
     ret {| page_number := page_number;
            page_size := page_size;
            count := Z.of_nat (length users);
            total_pages := total_pages;
            has_previous_page := 1 <? page_number;
            has_next_page := lt_number page_number total_pages;
            data := users |})
    (fun error =>
       throw (Raised (Error (String.append "Failed to get users: "
                                           (message_of error))))).

Definition getUser (id : string) : Eff S (option userDetail) :=
  user <- Repository.getUser usersRepository id ;;
  match user with
  | None => ret None
  | Some user =>
      ret (Some {| detail_id := user_id user;
                   detail_name := user_name user;
                   detail_email := user_email user |})
  end.

Definition createUser (name email password : string) : Eff S bool :=
  hashedPassword <- Password.hashPassword passwordUtils password ;;
  try_catch
    (Repository.createUser usersRepository name email hashedPassword ;;;
     ret true)
    (fun err => ret false).

Definition updateUser (id name email : string) : Eff S bool :=
  user <- Repository.getUser usersRepository id ;;
  match user with
  | None => ret false
  | Some _ =>
      try_catch
        (Repository.updateUser usersRepository id name email ;;;
         ret true)
        (fun err => ret false)
  end.

Definition deleteUser (id : string) : Eff S bool :=
  user <- Repository.getUser usersRepository id ;;
  match user with
  | None => ret false
  | Some _ =>
      try_catch
        (Repository.deleteUser usersRepository id ;;;
         ret true)
        (fun err => ret false)
  end.

Definition emailIsRegistered (email : string) : Eff S bool :=
  user <- Repository.getUserByEmail usersRepository email ;;
  match user with
  | None => ret false
  | Some _ => ret true
  end.

(** [user.password] is read before [passwordMatched] is called; on
    [null] the read raises. *)
Definition checkPassword (userId password : string) : Eff S bool :=
  user <- Repository.getUser usersRepository userId ;;
  match user with
  | None =>
      throw (TypeError "Cannot read properties of null (reading 'password')")
  | Some user =>
      Password.passwordMatched passwordUtils password (user_password user)
  end.

Definition changePassword (userId password : string) : Eff S bool :=
  user <- Repository.getUser usersRepository userId ;;
  match user with
  | None => ret false
  | Some _ =>
      hashedPassword <- Password.hashPassword passwordUtils password ;;
      changeSuccess <-
        Repository.changePassword usersRepository userId hashedPassword ;;
      if changeSuccess then ret true else ret false
  end.

Definition createUserMinibank (name email password : string) (balance : Z)
    (telp : string) : Eff S bool :=
  hashedPassword <- Password.hashPassword passwordUtils password ;;
  try_catch
    (Repository.createUserMinibank usersRepository
       name email hashedPassword balance telp ;;;
     ret true)
    (fun err => ret false).

(** The result is the object [{ telp: user.telp }], which is never
    falsy; the type leaves room for the falsy value the controller
    tests for. *)
Definition getminibanktelp (email password : string)
    : Eff S (option string) :=
  user <- Repository.getUserMinibankByEmail usersRepository email ;;
  match user with
  | None => throw (Raised (Error "Invalid email or password"))
  | Some user =>
      passwordMatch <-
        Password.passwordMatched passwordUtils password
          (minibank_password user) ;;
      if passwordMatch then ret (Some (minibank_telp user))
      else throw (Raised (Error "Invalid email or password"))
  end.

(** The result is [telpbaru] or [null]. *)
Definition updateminibanktelp (id email password telpbaru : string)
    : Eff S (option string) :=
  user <- Repository.getminibanktelp usersRepository id ;;
  match user with
  | None => ret None
  | Some _ =>
      let telp := telpbaru in
      try_catch
        (Repository.changetelp usersRepository id telp ;;;
         ret (Some telp))
        (fun err => ret None)
  end.

Definition deleteminibank (id : string) : Eff S bool :=
  user <- Repository.deleteminibank usersRepository id ;;
  if user then
    try_catch
      (Repository.deleteminibank usersRepository id ;;;
       ret true)
      (fun err => ret false)
  else ret false.

End WithCollaborators.
End Service.

(** ** users-controller.js *)

(** The query filter: [{}] or
    [{ [columnName]: { $regex: searchValue, $options: 'i' } }]. *)
Inductive filter : Type :=
  | NoFilter
  | RegexFilter (columnName searchValue : string).

(** [{ [sortField]: sortOrder }] *)
Record sortOptions : Type := {
  sortField : string;
  sortOrder : Z;
}.

(** The mongoose model [User], as [getUsers] queries it:
    [User.countDocuments(filter)] and
    [User.find(filter).sort(sortOptions).skip(skip).limit(limit)]. *)
Module Model.
Section Ops.
Context {S : Type}.
Record t : Type := {
  countDocuments : filter -> Eff S Z;
  find : filter -> sortOptions -> Z -> Z -> Eff S (list userDoc);
}.
End Ops.
Arguments t S : clear implicits.
End Model.

Module Controller.

(** The filter [getUsers] derives from the query parameter [search]. *)
Definition searchFilter (search : option string) : filter :=
  if truthy search then
    let parts := split_colon (default EmptyString search) in
    let columnName := parts !! 0%nat in
    let searchValue := parts !! 1%nat in
    if truthy columnName && truthy searchValue
    then RegexFilter (default EmptyString columnName)
                     (default EmptyString searchValue)
    else NoFilter
  else NoFilter.

(** The sort options [getUsers] derives from the query parameter [sort],
    whose default is ['email:asc']. *)
Definition sortOptionsOf (sort : option string) : sortOptions :=
  let sort := default "email:asc" sort in
  if truthy (Some sort) then
    let parts := split_colon sort in
    let field := parts !! 0%nat in
    let order := parts !! 1%nat in
    {| sortField := default "undefined" field;
       sortOrder := match order with
                    | Some order => if String.eqb order "desc" then -1 else 1
                    | None => 1
                    end |}
  else {| sortField := "email"; sortOrder := 1 |}.

Section WithCollaborators.
Context {S : Type}.
Variable User : Model.t S.
Variable usersRepository : Repository.t S.
Variable passwordUtils : Password.t S.

Let usersService_getUser := Service.getUser usersRepository.
Let usersService_emailIsRegistered := Service.emailIsRegistered usersRepository.
Let usersService_createUser := Service.createUser usersRepository passwordUtils.
Let usersService_updateUser := Service.updateUser usersRepository.
Let usersService_deleteUser := Service.deleteUser usersRepository.
Let usersService_checkPassword :=
  Service.checkPassword usersRepository passwordUtils.
Let usersService_changePassword :=
  Service.changePassword usersRepository passwordUtils.
Let usersService_createUserMinibank :=
  Service.createUserMinibank usersRepository passwordUtils.
Let usersService_getminibanktelp :=
  Service.getminibanktelp usersRepository passwordUtils.
Let usersService_updateminibanktelp :=
  Service.updateminibanktelp usersRepository.
Let usersService_deleteminibank := Service.deleteminibank usersRepository.

(** [try { ... } catch (error) { return next(error); }] *)
Definition handler (body : Eff S answer) : Eff S answer :=
  try_catch body (fun error => ret (PassOn error)).

(** [zero]: which zero [page_size] is, when it is zero. *)
Definition getUsers (zero : zeroSign) (page_number page_size : option Z)
    (sort search : option string) : Eff S answer :=
  handler
    (let page_number := default 1 page_number in
     let page_size := default 10 page_size in
     let filter := searchFilter search in
     let sortOptions := sortOptionsOf sort in
     count <- Model.countDocuments User filter ;;
     let total_pages := ceil_quotient zero count page_size in
     let has_previous_page := 1 <? page_number in
     let has_next_page := lt_number page_number total_pages in
     let skip := (page_number - 1) * page_size in
     users <- Model.find User filter sortOptions skip page_size ;;
     ret (Respond 200
            (PageBody {| Users.page_number := page_number;
                         Users.page_size := page_size;
                         Users.count := count;
                         Users.total_pages := total_pages;
                         Users.has_previous_page := has_previous_page;
                         Users.has_next_page := has_next_page;
                         data := users |}))).

Definition getUser (id : string) : Eff S answer :=
  handler
    (user <- usersService_getUser id ;;
     match user with
     | None =>
         throw (Raised (errorResponder UNPROCESSABLE_ENTITY "Unknown user"))
     | Some user => ret (Respond 200 (DetailBody user))
     end).

Definition createUser (name email password password_confirm : string)
    : Eff S answer :=
  handler
    ((if negb (String.eqb password password_confirm)
      then throw (Raised (errorResponder INVALID_PASSWORD
                            "Password confirmation mismatched"))
      else ret tt) ;;;
     emailIsRegistered <- usersService_emailIsRegistered email ;;
     (if emailIsRegistered : bool
      then throw (Raised (errorResponder EMAIL_ALREADY_TAKEN
                            "Email is already registered"))
      else ret tt) ;;;
     success <- usersService_createUser name email password ;;
     (if negb success
      then throw (Raised (errorResponder UNPROCESSABLE_ENTITY
                            "Failed to create user"))
      else ret tt) ;;;
     ret (Respond 200 (NameEmailBody name email))).

Definition updateUser (id name email : string) : Eff S answer :=
  handler
    (emailIsRegistered <- usersService_emailIsRegistered email ;;
     (if emailIsRegistered : bool
      then throw (Raised (errorResponder EMAIL_ALREADY_TAKEN
                            "Email is already registered"))
      else ret tt) ;;;
     success <- usersService_updateUser id name email ;;
     (if negb success
      then throw (Raised (errorResponder UNPROCESSABLE_ENTITY
                            "Failed to update user"))
      else ret tt) ;;;
     ret (Respond 200 (IdBody id))).

Definition deleteUser (id : string) : Eff S answer :=
  handler
    (success <- usersService_deleteUser id ;;
     (if negb success
      then throw (Raised (errorResponder UNPROCESSABLE_ENTITY
                            "Failed to delete user"))
      else ret tt) ;;;
     ret (Respond 200 (IdBody id))).

Definition changePassword (id password_old password_new password_confirm
    : string) : Eff S answer :=
  handler
    ((if negb (String.eqb password_new password_confirm)
      then throw (Raised (errorResponder INVALID_PASSWORD
                            "Password confirmation mismatched"))
      else ret tt) ;;;
     passwordChecked <- usersService_checkPassword id password_old ;;
     (if negb passwordChecked
      then throw (Raised (errorResponder INVALID_CREDENTIALS "Wrong password"))
      else ret tt) ;;;
     changeSuccess <- usersService_changePassword id password_new ;;
     (if negb changeSuccess
      then throw (Raised (errorResponder UNPROCESSABLE_ENTITY
                            "Failed to change password"))
      else ret tt) ;;;
     ret (Respond 200 (IdBody id))).

Definition createUserMinibank (name email password password_confirm : string)
    (balance : Z) (telp : string) : Eff S answer :=
  handler
    ((if negb (String.eqb password password_confirm)
      then throw (Raised (errorResponder INVALID_PASSWORD
                            "Password confirmation mismatched"))
      else ret tt) ;;;
     emailIsRegistered <- usersService_emailIsRegistered email ;;
     (if emailIsRegistered : bool
      then throw (Raised (errorResponder EMAIL_ALREADY_TAKEN
                            "Email is already registered"))
      else ret tt) ;;;
     success <-
       usersService_createUserMinibank name email password balance telp ;;
     (if negb success
      then throw (Raised (errorResponder UNPROCESSABLE_ENTITY
                            "Failed to create user"))
      else ret tt) ;;;
     ret (Respond 200 (NameEmailBody name email))).

Definition getminibanktelp (email password : string) : Eff S answer :=
  handler
    (user <- usersService_getminibanktelp email password ;;
     match user with
     | None =>
         throw (Raised (errorResponder UNPROCESSABLE_ENTITY "Unknown user"))
     | Some telp => ret (Respond 200 (TelpBody (Some telp)))
     end).

Definition updateminibanktelp (id password email telpbaru : string)
    : Eff S answer :=
  handler
    (newtelp <- usersService_updateminibanktelp id email password telpbaru ;;
     ret (Respond 200 (TelpBody newtelp))).

Definition deleteminibank (id : string) : Eff S answer :=
  handler
    (success <- usersService_deleteminibank id ;;
     (if negb success
      then throw (Raised (errorResponder UNPROCESSABLE_ENTITY
                            "Failed to delete user"))
      else ret tt) ;;;
     ret (Respond 200 (IdBody id))).

End WithCollaborators.
End Controller.

(** ** Collaborators to run the handlers on

    These stand in for the database and the password utilities where a
    concrete run is wanted.  Their state is the list of the operations
    that were called, most recent first. *)

Module Stub.

Definition called {A} (operation : string) (r : result A)
    : Eff (list string) A :=
  fun s => (r, operation :: s).

Definition when_email {A} (email : A -> string) (doc : option A)
    (wanted : string) : option A :=
  match doc with
  | Some d => if String.eqb (email d) wanted then Some d else None
  | None => None
  end.

(** A repository holding at most one user and one minibank account;
    with [broken] its writes and its listing fail. *)
Definition repository (user : option userDoc) (minibank : option minibankDoc)
    (broken : bool) : Repository.t (list string) :=
  let write (operation : string) : Eff (list string) unit :=
    called operation
      (if broken then Raise (Raised (Error "connection lost")) else Ok tt) in
  {| Repository.getUsers := fun _ _ _ _ =>
       called "getUsers"
         (if broken then Raise (Raised (Error "connection lost"))
          else Ok (option_list user));
     Repository.getUserCount := fun _ =>
       called "getUserCount" (Ok (Z.of_nat (length (option_list user))));
     Repository.getUser := fun _ => called "getUser" (Ok user);
     Repository.createUser := fun _ _ _ => write "createUser";
     Repository.updateUser := fun _ _ _ => write "updateUser";
     Repository.deleteUser := fun _ => write "deleteUser";
     Repository.getUserByEmail := fun email =>
       called "getUserByEmail" (Ok (when_email user_email user email));
     Repository.changePassword := fun _ _ =>
       called "changePassword"
         (if broken then Raise (Raised (Error "connection lost")) else Ok true);
     Repository.createUserMinibank := fun _ _ _ _ _ =>
       write "createUserMinibank";
     Repository.getUserMinibankByEmail := fun email =>
       called "getUserMinibankByEmail"
         (Ok (when_email minibank_email minibank email));
     Repository.getminibanktelp := fun _ =>
       called "getminibanktelp" (Ok minibank);
     Repository.changetelp := fun _ _ => write "changetelp";
     Repository.deleteminibank := fun _ =>
       called "deleteminibank"
         (Ok (match minibank with Some _ => true | None => false end)) |}.

Definition passwordUtils : Password.t (list string) :=
  {| Password.hashPassword := fun password =>
       called "hashPassword" (Ok (String.append "#" password));
     Password.passwordMatched := fun password hash =>
       called "passwordMatched" (Ok (prefixHash password hash)) |}.

(** Password utilities whose hashing fails. *)
Definition brokenPasswordUtils : Password.t (list string) :=
  {| Password.hashPassword := fun _ =>
       called "hashPassword" (Raise (Raised (Error "out of entropy")));
     Password.passwordMatched := fun password hash =>
       called "passwordMatched" (Ok (prefixHash password hash)) |}.

(** [base], except that [deleteminibank] succeeds once and throws from
    then on. *)
Definition deletingOnce (base : Repository.t (list string))
    : Repository.t (list string) :=
  {| Repository.getUsers := Repository.getUsers base;
     Repository.getUserCount := Repository.getUserCount base;
     Repository.getUser := Repository.getUser base;
     Repository.createUser := Repository.createUser base;
     Repository.updateUser := Repository.updateUser base;
     Repository.deleteUser := Repository.deleteUser base;
     Repository.getUserByEmail := Repository.getUserByEmail base;
     Repository.changePassword := Repository.changePassword base;
     Repository.createUserMinibank := Repository.createUserMinibank base;
     Repository.getUserMinibankByEmail :=
       Repository.getUserMinibankByEmail base;
     Repository.getminibanktelp := Repository.getminibanktelp base;
     Repository.changetelp := Repository.changetelp base;
     Repository.deleteminibank := fun _ s =>
       if existsb (String.eqb "deleteminibank") s
       then (Raise (Raised (Error "no such account")), "deleteminibank" :: s)
       else (Ok true, "deleteminibank" :: s) |}.

Definition model (docs : list userDoc) : Model.t (list string) :=
  {| Model.countDocuments := fun _ =>
       called "countDocuments" (Ok (Z.of_nat (length docs)));
     Model.find := fun _ _ _ _ => called "find" (Ok docs) |}.

Definition bob : userDoc :=
  {| user_id := "u1";
     user_name := "Bob";
     user_email := "b@x.com";
     user_password := "#hunter2" |}.

Definition bobAccount : minibankDoc :=
  {| minibank_name := "Bob";
     minibank_email := "b@x.com";
     minibank_password := "#hunter2";
     minibank_balance := 100;
     minibank_telp := "0811" |}.

End Stub.

End Users.

(** ** Basic facts *)

Lemma or_zero_default (v : option Z) : or_zero v = default 0 v.
Proof.
  destruct v as [n|]; simpl; [|reflexivity].
  destruct (Z.eqb_spec n 0); congruence.
Qed.

Lemma failureCount_insert_eq (m : gmap string Z) ts c l
    (email : string) (n : Z) :
  failureCount (World (<[email := n]> m) ts c l) email = n.
Proof.
  unfold failureCount; simpl.
  rewrite lookup_insert_eq, or_zero_default. reflexivity.
Qed.

Lemma performed_app (w w' : world) (es : list effect) :
  log w' = es ++ log w -> performed w w' = es.
Proof.
  intros H. unfold performed. rewrite H, length_app.
  replace (length es + length (log w) - length (log w))%nat
    with (length es) by lia.
  apply take_app_length.
Qed.

Lemma performed_refl (w : world) : performed w w = [].
Proof. apply performed_app. reflexivity. Qed.

(** *** The four ways through the handler *)

Section Paths.
Context {Body : Type}.
Variable svc : service Body.
Variables email password : string.
Variable w : world.

Lemma login_locked :
  5 <= failureCount w email ->
  login svc email password w = (Normal (Next tooManyAttempts), w).
Proof.
  intros H. unfold login, try_catch, bind, read_attempts.
  fold (failureCount w email).
  destruct (Z.leb_spec 5 (failureCount w email)); [reflexivity | lia].
Qed.

Lemma login_throws (e : error) :
  failureCount w email < 5 ->
  svc email password = Throws e ->
  login svc email password w =
    (Normal (Next e),
     {| failedLoginAttempts := failedLoginAttempts w;
        timers := timers w;
        clock := clock w;
        log := Lookup email password :: log w |}).
Proof.
  intros H Hs.
  unfold login, try_catch, bind, read_attempts, checkLoginCredentials.
  fold (failureCount w email).
  destruct (Z.leb_spec 5 (failureCount w email)); [lia |].
  simpl. rewrite Hs. reflexivity.
Qed.

Lemma login_rejected :
  failureCount w email < 5 ->
  svc email password = Returns None ->
  login svc email password w =
    (Normal (Next wrongEmailOrPassword),
     {| failedLoginAttempts :=
          <[email := failureCount w email + 1]> (failedLoginAttempts w);
        timers := timers w;
        clock := clock w;
        log := Write email (failureCount w email + 1)
                 :: Lookup email password :: log w |}).
Proof.
  intros H Hs.
  unfold login, try_catch, bind, read_attempts, checkLoginCredentials.
  fold (failureCount w email).
  destruct (Z.leb_spec 5 (failureCount w email)); [lia |].
  simpl. rewrite Hs. reflexivity.
Qed.

Lemma login_accepted (body : Body) :
  failureCount w email < 5 ->
  svc email password = Returns (Some body) ->
  login svc email password w =
    (Normal (Json 200 body),
     {| failedLoginAttempts := <[email := 0]> (failedLoginAttempts w);
        timers := timers w ++ [Timer (clock w + loginAttemptResetTime) email];
        clock := clock w;
        log := SetTimeout email loginAttemptResetTime
                 :: Write email 0 :: Lookup email password :: log w |}).
Proof.
  intros H Hs.
  unfold login, try_catch, bind, read_attempts, checkLoginCredentials.
  fold (failureCount w email).
  destruct (Z.leb_spec 5 (failureCount w email)); [lia |].
  simpl. rewrite Hs. reflexivity.
Qed.

(** The handler never lets an exception escape: whatever happens, it
    produces a response. *)
Lemma login_responds :
  exists r, fst (login svc email password w) = Normal r.
Proof.
  destruct (Z.lt_ge_cases (failureCount w email) 5) as [Hlt | Hge].
  - destruct (svc email password) as [[body|]|e] eqn:Hs.
    + rewrite (login_accepted body Hlt Hs). eauto.
    + rewrite (login_rejected Hlt Hs). eauto.
    + rewrite (login_throws e Hlt Hs). eauto.
  - rewrite (login_locked Hge). eauto.
Qed.

End Paths.

(** ** The lockout guard *)

(** C1.  When the failure count stored for an identifier is at least 5,
    [login] answers with the lockout error and performs no effect at
    all, so [checkLoginCredentials] is not called; when the count is
    below 5, the first thing [login] does is call
    [checkLoginCredentials] with the identifier and password, once. *)
Theorem lockout_guards_lookup {Body} (svc : service Body)
    (email password : string) (w : world) :
  let res := login svc email password w in
  (5 <= failureCount w email ->
     fst res = Normal (Next tooManyAttempts) /\
     performed w (snd res) = []) /\
  (failureCount w email < 5 ->
     last (performed w (snd res)) = Some (Lookup email password) /\
     lookups (performed w (snd res)) = 1%nat).
Proof.
  cbv zeta. split.
  - intros Hge. rewrite (login_locked svc email password w Hge); simpl.
    split; [reflexivity | apply performed_refl].
  - intros Hlt.
    destruct (svc email password) as [[body|]|e] eqn:Hs.
    + rewrite (login_accepted svc email password w body Hlt Hs); simpl.
      erewrite performed_app
        with (es := [SetTimeout email loginAttemptResetTime; Write email 0;
                     Lookup email password]) by reflexivity.
      split; reflexivity.
    + rewrite (login_rejected svc email password w Hlt Hs); simpl.
      erewrite performed_app
        with (es := [Write email (failureCount w email + 1);
                     Lookup email password]) by reflexivity.
      split; reflexivity.
    + rewrite (login_throws svc email password w e Hlt Hs); simpl.
      erewrite performed_app with (es := [Lookup email password])
        by reflexivity.
      split; reflexivity.
Qed.

Lemma lockout_guards_lookup_witness :
  (5 <= failureCount lockedOut "a@x.com" /\
   fst (login demo "a@x.com" "secret" lockedOut)
     = Normal (Next tooManyAttempts) /\
   performed lockedOut (snd (login demo "a@x.com" "secret" lockedOut)) = []) /\
  (failureCount initial "a@x.com" < 5 /\
   last (performed initial (snd (login demo "a@x.com" "secret" initial)))
     = Some (Lookup "a@x.com" "secret") /\
   lookups (performed initial (snd (login demo "a@x.com" "secret" initial)))
     = 1%nat).
Proof.
  split.
  - assert (H : 5 <= failureCount lockedOut "a@x.com")
      by (vm_compute; discriminate).
    split; [exact H |].
    exact (proj1 (lockout_guards_lookup demo "a@x.com" "secret" lockedOut) H).
  - assert (H : failureCount initial "a@x.com" < 5)
      by (vm_compute; reflexivity).
    split; [exact H |].
    exact (proj2 (lockout_guards_lookup demo "a@x.com" "secret" initial) H).
Defined.

(** ** Outcomes of an unlocked call *)

(** C3.  When the identifier is not locked out and the service rejects
    the credentials, [login] passes the invalid-credentials error on and
    the failure count stored for the identifier is one more than before
    the call. *)
Theorem rejection_counts_one {Body} (svc : service Body)
    (email password : string) (w : world) :
  failureCount w email < 5 ->
  svc email password = Returns None ->
  fst (login svc email password w) = Normal (Next wrongEmailOrPassword) /\
  failureCount (snd (login svc email password w)) email
    = failureCount w email + 1.
Proof.
  intros Hlt Hs. rewrite (login_rejected svc email password w Hlt Hs); simpl.
  split; [reflexivity | apply failureCount_insert_eq].
Qed.

Lemma rejection_counts_one_witness :
  fst (login demo "a@x.com" "guess" initial)
    = Normal (Next wrongEmailOrPassword) /\
  failureCount (snd (login demo "a@x.com" "guess" initial)) "a@x.com"
    = failureCount initial "a@x.com" + 1.
Proof.
  apply (rejection_counts_one demo "a@x.com" "guess" initial).
  - vm_compute; reflexivity.
  - vm_compute; reflexivity.
Defined.

(** C4.  When the identifier is not locked out and the service accepts
    the credentials, [login] answers 200 with what the service returned
    and the failure count stored for the identifier is 0, whatever it
    was. *)
Theorem success_resets_count {Body} (svc : service Body)
    (email password : string) (w : world) (body : Body) :
  failureCount w email < 5 ->
  svc email password = Returns (Some body) ->
  fst (login svc email password w) = Normal (Json 200 body) /\
  failureCount (snd (login svc email password w)) email = 0.
Proof.
  intros Hlt Hs. rewrite (login_accepted svc email password w body Hlt Hs).
  simpl. split; [reflexivity | apply failureCount_insert_eq].
Qed.

(** ** Errors *)

(** C5.  A call that ends with the lockout error leaves the counters
    and the pending timers exactly as they were, for every identifier. *)
Theorem lockout_changes_nothing {Body} (svc : service Body)
    (email password : string) (w : world) :
  fst (login svc email password w) = Normal (Next tooManyAttempts) ->
  failedLoginAttempts (snd (login svc email password w))
    = failedLoginAttempts w /\
  timers (snd (login svc email password w)) = timers w.
Proof.
  intros Hout.
  destruct (Z.lt_ge_cases (failureCount w email) 5) as [Hlt | Hge].
  - destruct (svc email password) as [[body|]|e] eqn:Hs.
    + rewrite (login_accepted svc email password w body Hlt Hs) in Hout.
      discriminate Hout.
    + rewrite (login_rejected svc email password w Hlt Hs) in Hout.
      discriminate Hout.
    + rewrite (login_throws svc email password w e Hlt Hs). split; reflexivity.
  - rewrite (login_locked svc email password w Hge). split; reflexivity.
Qed.

Lemma lockout_changes_nothing_witness :
  failedLoginAttempts (snd (login demo "a@x.com" "secret" lockedOut))
    = failedLoginAttempts lockedOut /\
  timers (snd (login demo "a@x.com" "secret" lockedOut)) = timers lockedOut.
Proof.
  apply (lockout_changes_nothing demo "a@x.com" "secret" lockedOut).
  vm_compute; reflexivity.
Defined.

(** C6.  When the call of the service throws, [login] hands that very
    error to [next], and neither the counters nor the timers change: no
    failed attempt is recorded. *)
Theorem lookup_failure_is_not_counted {Body} (svc : service Body)
    (email password : string) (w : world) (e : error) :
  failureCount w email < 5 ->
  svc email password = Throws e ->
  fst (login svc email password w) = Normal (Next e) /\
  failedLoginAttempts (snd (login svc email password w))
    = failedLoginAttempts w /\
  timers (snd (login svc email password w)) = timers w /\
  mutations (performed w (snd (login svc email password w))) = 0%nat.
Proof.
  intros Hlt Hs. rewrite (login_throws svc email password w e Hlt Hs); simpl.
  repeat split.
  erewrite performed_app with (es := [Lookup email password]) by reflexivity.
  reflexivity.
Qed.

Lemma success_resets_count_witness :
  failureCount threeFailures "a@x.com" = 3 /\
  fst (login demo "a@x.com" "secret" threeFailures)
    = Normal (Json 200 (publicProfile alice)) /\
  failureCount (snd (login demo "a@x.com" "secret" threeFailures)) "a@x.com"
    = 0.
Proof.
  split; [vm_compute; reflexivity |].
  apply (success_resets_count demo "a@x.com" "secret" threeFailures).
  - vm_compute; reflexivity.
  - vm_compute; reflexivity.
Defined.

Lemma lookup_failure_is_not_counted_witness :
  fst (login outage "a@x.com" "secret" initial)
    = Normal (Next (Error "storage unavailable")) /\
  failedLoginAttempts (snd (login outage "a@x.com" "secret" initial))
    = failedLoginAttempts initial /\
  timers (snd (login outage "a@x.com" "secret" initial)) = timers initial /\
  mutations (performed initial (snd (login outage "a@x.com" "secret" initial)))
    = 0%nat.
Proof.
  apply (lookup_failure_is_not_counted outage "a@x.com" "secret" initial).
  - vm_compute; reflexivity.
  - vm_compute; reflexivity.
Defined.

(** ** Unknown identifier against wrong password *)

(** Whatever the reason for which the service returns a falsy value, the
    response of an unlocked call is the same. *)
Lemma rejections_look_alike {Body} (svc1 svc2 : service Body)
    (email1 password1 email2 password2 : string) (w1 w2 : world) :
  failureCount w1 email1 < 5 ->
  failureCount w2 email2 < 5 ->
  svc1 email1 password1 = Returns None ->
  svc2 email2 password2 = Returns None ->
  fst (login svc1 email1 password1 w1) = fst (login svc2 email2 password2 w2).
Proof.
  intros H1 H2 Hs1 Hs2.
  rewrite (login_rejected svc1 email1 password1 w1 H1 Hs1).
  rewrite (login_rejected svc2 email2 password2 w2 H2 Hs2).
  reflexivity.
Qed.

(** C7.  With the credential service of the specification, a call for
    an identifier that has no credential record and a call for a known
    identifier with a wrong password, neither locked out, get the same
    response: the invalid-credentials error, with the same type and the
    same message. *)
Theorem unknown_and_wrong_password_indistinguishable
    (lookupByIdentifier : string -> lookupResult)
    (verify : string -> string -> bool)
    (unknown password1 known password2 : string) (r : CredentialRecord)
    (w1 w2 : world) :
  let svc := specCheckLoginCredentials lookupByIdentifier verify in
  lookupByIdentifier unknown = NotFound ->
  lookupByIdentifier known = Found r ->
  verify password2 (passwordHash r) = false ->
  failureCount w1 unknown < 5 ->
  failureCount w2 known < 5 ->
  fst (login svc unknown password1 w1) = fst (login svc known password2 w2) /\
  fst (login svc unknown password1 w1) = Normal (Next wrongEmailOrPassword).
Proof.
  intros svc Hu Hk Hv H1 H2.
  assert (Hs1 : svc unknown password1 = Returns None).
  { unfold svc, specCheckLoginCredentials. rewrite Hu. reflexivity. }
  assert (Hs2 : svc known password2 = Returns None).
  { unfold svc, specCheckLoginCredentials. rewrite Hk, Hv. reflexivity. }
  split.
  - apply rejections_look_alike; assumption.
  - rewrite (login_rejected svc unknown password1 w1 H1 Hs1). reflexivity.
Qed.

Lemma unknown_and_wrong_password_indistinguishable_witness :
  fst (login demo "nobody@x.com" "secret" initial)
    = fst (login demo "a@x.com" "guess" initial) /\
  fst (login demo "nobody@x.com" "secret" initial)
    = Normal (Next wrongEmailOrPassword).
Proof.
  apply (unknown_and_wrong_password_indistinguishable oneUser prefixHash
           "nobody@x.com" "secret" "a@x.com" "guess" alice initial initial).
  - vm_compute; reflexivity.
  - vm_compute; reflexivity.
  - vm_compute; reflexivity.
  - vm_compute; reflexivity.
  - vm_compute; reflexivity.
Defined.

(** ** Counting the assignments *)

Lemma isLocked_true (w : world) (email : string) :
  5 <= failureCount w email -> isLocked w email = true.
Proof. intros H. unfold isLocked. apply Z.leb_le. exact H. Qed.

Lemma isLocked_false (w : world) (email : string) :
  failureCount w email < 5 -> isLocked w email = false.
Proof. intros H. unfold isLocked. apply Z.leb_gt. exact H. Qed.

(** The service being down is enough to break "exactly one mutation":
    the call is not locked out and assigns nothing. *)
Lemma outage_performs_no_mutation :
  ~ one_mutation_unless_locked outage "a@x.com" "secret" initial.
Proof. unfold one_mutation_unless_locked. vm_compute. discriminate. Qed.

(** C8, amended.  Before it responds, a call assigns to
    [failedLoginAttempts] at most once: once, writing the count it read
    plus one, when the service rejects; once, writing 0, when the
    service accepts; not at all when it is short-circuited by lockout or
    when the call of the service throws. *)
Theorem assignments_per_call {Body} (svc : service Body)
    (email password : string) (w : world) :
  List.filter is_write (performed w (snd (login svc email password w))) =
    if isLocked w email then []
    else match svc email password with
         | Throws _ => []
         | Returns None => [Write email (failureCount w email + 1)]
         | Returns (Some _) => [Write email 0]
         end.
Proof.
  destruct (Z.lt_ge_cases (failureCount w email) 5) as [Hlt | Hge].
  - rewrite (isLocked_false w email Hlt).
    destruct (svc email password) as [[body|]|e] eqn:Hs.
    + rewrite (login_accepted svc email password w body Hlt Hs); simpl.
      erewrite performed_app
        with (es := [SetTimeout email loginAttemptResetTime; Write email 0;
                     Lookup email password]) by reflexivity.
      reflexivity.
    + rewrite (login_rejected svc email password w Hlt Hs); simpl.
      erewrite performed_app
        with (es := [Write email (failureCount w email + 1);
                     Lookup email password]) by reflexivity.
      reflexivity.
    + rewrite (login_throws svc email password w e Hlt Hs); simpl.
      erewrite performed_app with (es := [Lookup email password])
        by reflexivity.
      reflexivity.
  - rewrite (isLocked_true w email Hge).
    rewrite (login_locked svc email password w Hge); simpl.
    rewrite performed_refl. reflexivity.
Qed.

(** ** The counters stay between 0 and 5 *)

Lemma bounded_empty : bounded ∅.
Proof. apply map_Forall_empty. Qed.

Lemma bounded_insert (m : gmap string Z) (email : string) (n : Z) :
  bounded m -> 0 <= n <= 5 -> bounded (<[email := n]> m).
Proof. intros Hm Hn. apply map_Forall_insert_2; assumption. Qed.

Lemma bounded_or_zero (m : gmap string Z) (email : string) :
  bounded m -> 0 <= or_zero (m !! email) <= 5.
Proof.
  intros Hm. rewrite or_zero_default.
  destruct (m !! email) as [n|] eqn:Hn; simpl; [| lia].
  exact (Hm email n Hn).
Qed.

Lemma login_bounded {Body} (svc : service Body) (email password : string)
    (w : world) :
  bounded (failedLoginAttempts w) ->
  bounded (failedLoginAttempts (snd (login svc email password w))).
Proof.
  intros Hw.
  pose proof (bounded_or_zero _ email Hw) as Hc. fold (failureCount w email) in Hc.
  destruct (Z.lt_ge_cases (failureCount w email) 5) as [Hlt | Hge].
  - destruct (svc email password) as [[body|]|e] eqn:Hs.
    + rewrite (login_accepted svc email password w body Hlt Hs); simpl.
      apply bounded_insert; [assumption | lia].
    + rewrite (login_rejected svc email password w Hlt Hs); simpl.
      apply bounded_insert; [assumption | lia].
    + rewrite (login_throws svc email password w e Hlt Hs); simpl. assumption.
  - rewrite (login_locked svc email password w Hge). assumption.
Qed.

Lemma fire_all_bounded (due : list timer) (w : world) :
  bounded (failedLoginAttempts w) ->
  bounded (failedLoginAttempts (fold_left fire due w)).
Proof.
  revert w. induction due as [| t due IH]; intros w Hw; simpl.
  - assumption.
  - apply IH. simpl. apply bounded_insert; [assumption | lia].
Qed.

Lemma elapse_bounded (dt : Z) (w : world) :
  bounded (failedLoginAttempts w) ->
  bounded (failedLoginAttempts (elapse dt w)).
Proof. intros Hw. unfold elapse; simpl. apply fire_all_bounded, Hw. Qed.

Lemma run_bounded {Body} (ss : list (step Body)) (w : world) :
  bounded (failedLoginAttempts w) ->
  bounded (failedLoginAttempts (run ss w)).
Proof.
  revert w. induction ss as [| s ss IH]; intros w Hw.
  - assumption.
  - unfold run in *. simpl. apply IH.
    destruct s as [svc email password | dt]; simpl.
    + apply login_bounded, Hw.
    + apply elapse_bounded, Hw.
Qed.

(** C9.  Starting from the empty state, after any sequence of login
    calls and waits (during which due timers fire), the failure count of
    every identifier is at least 0 and at most 5. *)
Theorem count_between_0_and_5 {Body} (ss : list (step Body)) (email : string) :
  0 <= failureCount (run ss initial) email <= 5.
Proof.
  apply bounded_or_zero, run_bounded. simpl. apply bounded_empty.
Qed.

(** ** The reset timer *)

Lemma fire_resets (w : world) (t : timer) :
  failureCount (fire w t) (timer_email t) = 0.
Proof. apply failureCount_insert_eq. Qed.

(** Which calls register a callback. *)
Lemma login_timers {Body} (svc : service Body) (email password : string)
    (w : world) :
  timers (snd (login svc email password w)) =
    match fst (login svc email password w) with
    | Normal (Json _ _) =>
        timers w ++ [Timer (clock w + loginAttemptResetTime) email]
    | _ => timers w
    end.
Proof.
  destruct (Z.lt_ge_cases (failureCount w email) 5) as [Hlt | Hge].
  - destruct (svc email password) as [[body|]|e] eqn:Hs.
    + rewrite (login_accepted svc email password w body Hlt Hs). reflexivity.
    + rewrite (login_rejected svc email password w Hlt Hs). reflexivity.
    + rewrite (login_throws svc email password w e Hlt Hs). reflexivity.
  - rewrite (login_locked svc email password w Hge). reflexivity.
Qed.

(** C10.  A call registers the 30-minute callback exactly when it
    answers 200, and otherwise leaves the timers alone; a callback that
    fires sets the count of its identifier to 0 whatever it was; and so a
    successful login followed by five failed ones leaves "a@x.com" locked
    out until the callback of the successful login fires, after which it
    is not locked out although no login succeeded since the failures. *)
Theorem success_timer_lifts_later_lockout :
  (forall (Body : Type) (svc : service Body) (email password : string)
          (w : world),
     timers (snd (login svc email password w)) =
       match fst (login svc email password w) with
       | Normal (Json _ _) =>
           timers w ++ [Timer (clock w + loginAttemptResetTime) email]
       | _ => timers w
       end) /\
  (forall (w : world) (t : timer),
     failureCount (fire w t) (timer_email t) = 0) /\
  (let before := run (Request demo "a@x.com" "secret" :: fiveFailures) initial in
   let after := run (Body := Profile) [Wait loginAttemptResetTime] before in
   failureCount before "a@x.com" = 5 /\
   isLocked before "a@x.com" = true /\
   failureCount after "a@x.com" = 0 /\
   isLocked after "a@x.com" = false /\
   performed before after = [TimerFired "a@x.com"]).
Proof.
  split; [| split].
  - intros Body svc email password w. apply login_timers.
  - apply fire_resets.
  - vm_compute. repeat split.
Qed.

(** C2.  On a fresh server a failed login for "a@x.com" registers no
    callback, and after the reset window has passed the failure count is
    still 1: nothing resets it. *)
Theorem failure_schedules_no_reset :
  timers (run [Request demo "a@x.com" "guess"] initial) = [] /\
  failureCount
    (run [Request demo "a@x.com" "guess"; Wait loginAttemptResetTime] initial)
    "a@x.com" = 1 /\
  ~ reset_after_failure demo "a@x.com" "guess".
Proof.
  unfold reset_after_failure. vm_compute. repeat split. discriminate.
Qed.

(** *** A lockout without a pending callback does not end *)

Lemma fire_all_other (email : string) (due : list timer) (w : world) :
  Forall (fun t => timer_email t <> email) due ->
  failedLoginAttempts (fold_left fire due w) !! email
    = failedLoginAttempts w !! email.
Proof.
  revert w. induction due as [| t due IH]; intros w Hdue; simpl.
  - reflexivity.
  - inversion Hdue as [| ? ? Ht Hrest]; subst.
    rewrite (IH _ Hrest). simpl. apply lookup_insert_ne. exact Ht.
Qed.

Lemma Forall_filter_bool {A} (P : A -> Prop) (f : A -> bool) (l : list A) :
  Forall P l -> Forall P (List.filter f l).
Proof.
  induction 1 as [| x l Hx Hl IH]; simpl; [constructor |].
  destruct (f x); [constructor |]; assumption.
Qed.

Lemma elapse_keeps_lockout (email : string) (dt : Z) (w : world) :
  no_timer_for email w ->
  failureCount (elapse dt w) email = failureCount w email /\
  no_timer_for email (elapse dt w).
Proof.
  intros Hno. unfold failureCount, no_timer_for, elapse; simpl. split.
  - rewrite fire_all_other; [reflexivity |].
    apply Forall_filter_bool, Hno.
  - apply Forall_filter_bool, Hno.
Qed.

Lemma login_keeps_lockout {Body} (svc : service Body)
    (email email' password : string) (w : world) :
  5 <= failureCount w email ->
  no_timer_for email w ->
  failureCount (snd (login svc email' password w)) email = failureCount w email /\
  no_timer_for email (snd (login svc email' password w)).
Proof.
  intros Hlocked Hno.
  destruct (Z.lt_ge_cases (failureCount w email') 5) as [Hlt | Hge].
  - assert (Hne : email' <> email) by (intros ->; lia).
    destruct (svc email' password) as [[body|]|e] eqn:Hs.
    + rewrite (login_accepted svc email' password w body Hlt Hs).
      unfold failureCount, no_timer_for; simpl. split.
      * rewrite lookup_insert_ne by exact Hne. reflexivity.
      * apply Forall_app. split; [exact Hno |].
        constructor; [exact Hne | constructor].
    + rewrite (login_rejected svc email' password w Hlt Hs).
      unfold failureCount, no_timer_for; simpl. split.
      * rewrite lookup_insert_ne by exact Hne. reflexivity.
      * exact Hno.
    + rewrite (login_throws svc email' password w e Hlt Hs).
      split; [reflexivity | exact Hno].
  - rewrite (login_locked svc email' password w Hge).
    split; [reflexivity | exact Hno].
Qed.

(** Once an identifier is locked out and no callback is pending for it,
    no sequence of requests and waits unlocks it. *)
Lemma lockout_is_permanent {Body} (ss : list (step Body)) (email : string)
    (w : world) :
  5 <= failureCount w email ->
  no_timer_for email w ->
  failureCount (run ss w) email = failureCount w email.
Proof.
  revert w. induction ss as [| s ss IH]; intros w Hlocked Hno.
  - reflexivity.
  - unfold run in *. simpl.
    destruct s as [svc email' password | dt]; simpl.
    + destruct (login_keeps_lockout svc email email' password w Hlocked Hno)
        as [Hc Hn].
      rewrite IH; [exact Hc | rewrite Hc; exact Hlocked | exact Hn].
    + destruct (elapse_keeps_lockout email dt w Hno) as [Hc Hn].
      rewrite IH; [exact Hc | rewrite Hc; exact Hlocked | exact Hn].
Qed.

(** In particular the state after five failures on a fresh server. *)
Lemma lockedOut_forever (ss : list (step Profile)) :
  failureCount (run ss lockedOut) "a@x.com" = 5.
Proof.
  rewrite lockout_is_permanent.
  - vm_compute; reflexivity.
  - vm_compute; discriminate.
  - vm_compute. constructor.
Qed.

(** ** Requests that overlap at the [await] *)

(** Running the two halves back to back, with the service's answer in
    between, is [login]. *)
Lemma login_split {Body} (svc : service Body) (email password : string)
    (w : world) :
  login svc email password w =
    match login_until_await email password w with
    | (inl r, w') => (Normal r, w')
    | (inr k, w') =>
        let (r, w'') := login_after_await k (svc email password) w' in
        (Normal r, w'')
    end.
Proof.
  unfold login_until_await. fold (failureCount w email).
  destruct (Z.leb_spec 5 (failureCount w email)) as [Hge | Hlt].
  - apply login_locked, Hge.
  - destruct (svc email password) as [[body|]|e] eqn:Hs; simpl.
    + apply login_accepted; assumption.
    + apply login_rejected; assumption.
    + apply login_throws; assumption.
Qed.

Lemma login_until_await_bounded {Body} (email password : string) (s : server) :
  server_bounded s ->
  server_bounded (turn_exec (Body := Body) (Arrive email password) s).
Proof.
  intros [Hm Hk]. unfold turn_exec, login_until_await.
  pose proof (bounded_or_zero _ email Hm) as Hc.
  destruct (Z.leb_spec 5 (or_zero (failedLoginAttempts (shared s) !! email))).
  - split; assumption.
  - split; simpl; [assumption |].
    apply Forall_app. split; [assumption |].
    constructor; [simpl; lia | constructor].
Qed.

Lemma login_after_await_bounded {Body} (k : inflight) (r : reply Body)
    (w : world) :
  0 <= inflight_attempts k < 5 ->
  bounded (failedLoginAttempts w) ->
  bounded (failedLoginAttempts (snd (login_after_await k r w))).
Proof.
  intros Hk Hw. destruct r as [[body|]|e]; simpl.
  - apply bounded_insert; [assumption | lia].
  - apply bounded_insert; [assumption | lia].
  - assumption.
Qed.

Lemma turn_bounded {Body} (t : turn (Body := Body)) (s : server) :
  server_bounded s -> server_bounded (turn_exec t s).
Proof.
  intros Hs. destruct t as [email password | i r | dt].
  - apply login_until_await_bounded, Hs.
  - destruct Hs as [Hm Hk]. simpl.
    destruct (waiting s !! i) as [k|] eqn:Hi; [| split; assumption].
    split; simpl.
    + apply login_after_await_bounded; [| assumption].
      exact (proj1 (Forall_lookup _ _) Hk i k Hi).
    + apply Forall_delete, Hk.
  - destruct Hs as [Hm Hk]. split; simpl; [| assumption].
    apply elapse_bounded, Hm.
Qed.

(** However requests, answers of the service and timer callbacks
    interleave, the counters stay between 0 and 5: a suspended request
    holds a count below 5, so the value it writes on resuming is at most
    5 even if the counter has moved in the meantime. *)
Lemma interleaved_count_between_0_and_5 {Body}
    (ts : list (turn (Body := Body))) (email : string) :
  0 <= failureCount (shared (turns ts (Server initial []))) email <= 5.
Proof.
  apply bounded_or_zero.
  assert (H : forall s, server_bounded s -> server_bounded (turns ts s)).
  { induction ts as [| t ts IH]; intros s Hs; [assumption |].
    unfold turns in *. simpl. apply IH, turn_bounded, Hs. }
  apply H. split; [apply bounded_empty | constructor].
Qed.

(** Two overlapping failed logins count as one: the update of the first
    is lost. *)
Lemma overlapping_failures_lose_an_update :
  failureCount
    (shared (turns (Body := Profile)
               [Arrive "a@x.com" "guess1"; Arrive "a@x.com" "guess2";
                Resume 0 (Returns None); Resume 0 (Returns None)]
               (Server initial [])))
    "a@x.com" = 1.
Proof. vm_compute. reflexivity. Qed.

(** * The users component: query parsing and pagination *)

Module UsersFacts.
Import Users.
Import Stdlib.Strings.Ascii.

(** ** Splitting at colons *)

Lemma split_colon_free (s : string) :
  colon_free s = true -> split_colon s = [s].
Proof.
  induction s as [| c s IH]; simpl; [reflexivity |].
  intros H. apply andb_prop in H as [Hc Hs].
  destruct (Ascii.eqb c ":"%char); [discriminate |].
  rewrite (IH Hs). reflexivity.
Qed.

Lemma split_colon_app (a b : string) :
  colon_free a = true ->
  split_colon ((a ++ ":" ++ b)%string) = a :: split_colon b.
Proof.
  induction a as [| c a IH]; simpl; [reflexivity |].
  intros H. apply andb_prop in H as [Hc Ha].
  destruct (Ascii.eqb c ":"%char); [discriminate |].
  rewrite (IH Ha). reflexivity.
Qed.

Lemma truthy_app_colon (a b : string) :
  truthy (Some ((a ++ ":" ++ b)%string)) = true.
Proof. destruct a; reflexivity. Qed.

Lemma truthy_Some (s : string) : truthy (Some s) = nonempty s.
Proof. destruct s; reflexivity. Qed.

(** X1.  A sort parameter [field:order] whose two parts contain no colon
    sorts by [field], descending exactly when [order] is ["desc"] and
    ascending for every other [order]. *)
Theorem sort_parameter_parsed (field order : string) :
  colon_free field = true ->
  colon_free order = true ->
  Controller.sortOptionsOf (Some ((field ++ ":" ++ order)%string)) =
    {| sortField := field;
       sortOrder := if String.eqb order "desc" then -1 else 1 |}.
Proof.
  intros Hf Ho. unfold Controller.sortOptionsOf. simpl default.
  rewrite truthy_app_colon, (split_colon_app _ _ Hf), (split_colon_free _ Ho).
  reflexivity.
Qed.

Lemma sort_parameter_parsed_witness :
  Controller.sortOptionsOf (Some "name:desc") =
    {| sortField := "name"; sortOrder := -1 |}.
Proof.
  apply (sort_parameter_parsed "name" "desc"); vm_compute; reflexivity.
Defined.

Lemma searchFilter_two_parts (column value : string) (others : list string) :
  truthy (Some ((column ++ ":" ++ value)%string)) = true ->
  split_colon ((column ++ ":" ++ value)%string) = column :: value :: others ->
  Controller.searchFilter (Some ((column ++ ":" ++ value)%string)) =
    if nonempty column && nonempty value
    then RegexFilter column value
    else NoFilter.
Proof.
  intros Htruthy Hsplit. unfold Controller.searchFilter.
  rewrite Htruthy. simpl default. rewrite Hsplit.
  cbn [lookup list_lookup default].
  rewrite !truthy_Some. reflexivity.
Qed.

(** X2.  A search parameter [column:value] whose two parts contain no
    colon filters on [column] with the pattern [value] when both parts
    are non-empty, and does not filter at all when either is empty. *)
Theorem search_parameter_parsed (column value : string) :
  colon_free column = true ->
  colon_free value = true ->
  Controller.searchFilter (Some ((column ++ ":" ++ value)%string)) =
    if nonempty column && nonempty value
    then RegexFilter column value
    else NoFilter.
Proof.
  intros Hc Hv. apply (searchFilter_two_parts column value []).
  - apply truthy_app_colon.
  - rewrite (split_colon_app _ _ Hc), (split_colon_free _ Hv). reflexivity.
Qed.

Lemma search_parameter_parsed_witness :
  Controller.searchFilter (Some "email:bob") = RegexFilter "email" "bob".
Proof.
  apply (search_parameter_parsed "email" "bob"); vm_compute; reflexivity.
Defined.

(** X3.  A search parameter without a colon is ignored: the query is not
    filtered. *)
Theorem search_without_colon_ignored (search : string) :
  colon_free search = true ->
  Controller.searchFilter (Some search) = NoFilter.
Proof.
  intros H. unfold Controller.searchFilter.
  destruct (truthy (Some search)); [| reflexivity].
  simpl default. rewrite (split_colon_free _ H). simpl.
  rewrite andb_false_r. reflexivity.
Qed.

Lemma search_without_colon_ignored_witness :
  Controller.searchFilter (Some "bob") = NoFilter.
Proof.
  apply (search_without_colon_ignored "bob"); vm_compute; reflexivity.
Defined.

(** X4.  Whatever follows a second colon of the search parameter is
    dropped: the pattern ends there. *)
Theorem search_value_ends_at_second_colon (column value rest : string) :
  colon_free column = true ->
  colon_free value = true ->
  Controller.searchFilter
    (Some (column ++ ":" ++ value ++ ":" ++ rest)%string) =
  Controller.searchFilter (Some ((column ++ ":" ++ value)%string)).
Proof.
  intros Hc Hv.
  rewrite (searchFilter_two_parts column value [])
    by (try apply truthy_app_colon;
        rewrite (split_colon_app _ _ Hc), (split_colon_free _ Hv);
        reflexivity).
  unfold Controller.searchFilter.
  rewrite truthy_app_colon. simpl default.
  rewrite (split_colon_app _ _ Hc), (split_colon_app _ _ Hv).
  destruct (split_colon rest); cbn [lookup list_lookup default];
    rewrite !truthy_Some; reflexivity.
Qed.

Lemma search_value_ends_at_second_colon_witness :
  Controller.searchFilter (Some "name:a:b") =
  Controller.searchFilter (Some "name:a").
Proof.
  apply (search_value_ends_at_second_colon "name" "a" "b");
    vm_compute; reflexivity.
Defined.

(** ** Pages *)

Lemma ceil_quotient_positive (zero : zeroSign) (count page_size : Z) :
  0 < page_size ->
  exists n, ceil_quotient zero count page_size = Num n /\
            count <= n * page_size < count + page_size.
Proof.
  intros Hps. unfold ceil_quotient.
  destruct (Z.eqb_spec page_size 0) as [-> | _]; [lia |].
  exists (- (- count / page_size)). split; [reflexivity |].
  pose proof (Z.div_mod (- count) page_size ltac:(lia)) as Hdm.
  pose proof (Z.mod_pos_bound (- count) page_size Hps) as Hb.
  nia.
Qed.

Lemma lt_ceil_quotient (zero : zeroSign) (page_number count page_size : Z) :
  0 < page_size ->
  lt_number page_number (ceil_quotient zero count page_size) = true <->
  page_number * page_size < count.
Proof.
  intros Hps.
  destruct (ceil_quotient_positive zero count page_size Hps) as (n & -> & Hn).
  simpl. rewrite Z.ltb_lt. split; intros H; nia.
Qed.

(** What [getUsers] of the controller answers when both queries
    succeed. *)
Lemma controller_getUsers_ok {S} (User : Model.t S) (zero : zeroSign)
    (page_number page_size : option Z) (sort search : option string)
    (s s1 s2 : S) (count : Z) (users : list userDoc) :
  Model.countDocuments User (Controller.searchFilter search) s
    = (Ok count, s1) ->
  Model.find User (Controller.searchFilter search)
    (Controller.sortOptionsOf sort)
    ((default 1 page_number - 1) * default 10 page_size)
    (default 10 page_size) s1 = (Ok users, s2) ->
  Controller.getUsers User zero page_number page_size sort search s =
    (Ok (Respond 200
           (PageBody
              {| Users.page_number := default 1 page_number;
                 Users.page_size := default 10 page_size;
                 Users.count := count;
                 total_pages :=
                   ceil_quotient zero count (default 10 page_size);
                 has_previous_page := 1 <? default 1 page_number;
                 has_next_page :=
                   lt_number (default 1 page_number)
                     (ceil_quotient zero count (default 10 page_size));
                 data := users |})),
     s2).
Proof.
  intros Hcount Hfind.
  unfold Controller.getUsers, Controller.handler, try_catch, bind.
  rewrite Hcount, Hfind. reflexivity.
Qed.

(** X5.  When the page size is positive, the [total_pages] that
    [getUsers] of the controller reports is the least number of pages
    that hold all [count] matching documents. *)
Theorem total_pages_least_cover {S} (User : Model.t S) (zero : zeroSign)
    (page_number page_size : option Z) (sort search : option string)
    (s s1 s2 : S) (count : Z) (users : list userDoc) :
  0 < default 10 page_size ->
  Model.countDocuments User (Controller.searchFilter search) s
    = (Ok count, s1) ->
  Model.find User (Controller.searchFilter search)
    (Controller.sortOptionsOf sort)
    ((default 1 page_number - 1) * default 10 page_size)
    (default 10 page_size) s1 = (Ok users, s2) ->
  exists (p : page) (n : Z),
    Controller.getUsers User zero page_number page_size sort search s
      = (Ok (Respond 200 (PageBody p)), s2) /\
    total_pages p = Num n /\
    count <= n * default 10 page_size /\
    (forall m, count <= m * default 10 page_size -> n <= m).
Proof.
  intros Hps Hcount Hfind.
  destruct (ceil_quotient_positive zero count _ Hps) as (n & Hn & Hle & Hlt).
  eexists. exists n. split.
  - eapply controller_getUsers_ok; eassumption.
  - simpl. split; [exact Hn |]. split; [exact Hle |].
    intros m Hm. nia.
Qed.

(** X6.  When the page size is positive, [getUsers] of the controller
    sets [has_next_page] exactly when matching documents remain after
    the requested page, and [has_previous_page] exactly when the page
    number exceeds 1. *)
Theorem has_next_page_iff_documents_remain {S} (User : Model.t S)
    (zero : zeroSign) (page_number page_size : option Z) (sort search : option string)
    (s s1 s2 : S) (count : Z) (users : list userDoc) :
  0 < default 10 page_size ->
  Model.countDocuments User (Controller.searchFilter search) s
    = (Ok count, s1) ->
  Model.find User (Controller.searchFilter search)
    (Controller.sortOptionsOf sort)
    ((default 1 page_number - 1) * default 10 page_size)
    (default 10 page_size) s1 = (Ok users, s2) ->
  exists p : page,
    Controller.getUsers User zero page_number page_size sort search s
      = (Ok (Respond 200 (PageBody p)), s2) /\
    (has_next_page p = true <->
       default 1 page_number * default 10 page_size < count) /\
    (has_previous_page p = true <-> 1 < default 1 page_number).
Proof.
  intros Hps Hcount Hfind. eexists. split.
  - eapply controller_getUsers_ok; eassumption.
  - simpl. split.
    + apply lt_ceil_quotient, Hps.
    + apply Z.ltb_lt.
Qed.

(** X7.  With a page size of zero and at least one matching document,
    the page that [getUsers] of the controller hands to [response.json]
    has infinitely many pages and a next page after every page when the
    page size is [0]; when it is [-0] the number of pages is minus
    infinity and no page has a next one. *)
Theorem page_size_zero_by_sign {S} (User : Model.t S) (zero : zeroSign)
    (page_number : option Z) (sort search : option string)
    (s s1 s2 : S) (count : Z) (users : list userDoc) :
  0 < count ->
  Model.countDocuments User (Controller.searchFilter search) s
    = (Ok count, s1) ->
  Model.find User (Controller.searchFilter search)
    (Controller.sortOptionsOf sort) 0 0 s1 = (Ok users, s2) ->
  exists p : page,
    Controller.getUsers User zero page_number (Some 0) sort search s
      = (Ok (Respond 200 (PageBody p)), s2) /\
    total_pages p = match zero with
                    | PlusZero => Infinity
                    | MinusZero => NegInfinity
                    end /\
    has_next_page p = match zero with
                      | PlusZero => true
                      | MinusZero => false
                      end.
Proof.
  intros Hc Hcount Hfind. eexists. split.
  - eapply controller_getUsers_ok; [eassumption |].
    simpl default. rewrite Z.mul_0_r. exact Hfind.
  - simpl. unfold ceil_quotient. simpl.
    destruct (Z.eqb_spec count 0); [lia |].
    destruct (Z.ltb_spec 0 count); [| lia].
    destruct zero; split; reflexivity.
Qed.

Lemma total_pages_least_cover_witness :
  exists (p : page) (n : Z),
    Controller.getUsers (Stub.model [Stub.bob]) PlusZero
      None None None None []
      = (Ok (Respond 200 (PageBody p)), ["find"; "countDocuments"]) /\
    total_pages p = Num n /\
    1 <= n * 10 /\
    (forall m, 1 <= m * 10 -> n <= m).
Proof.
  apply (total_pages_least_cover (Stub.model [Stub.bob]) PlusZero
           None None None None
           [] ["countDocuments"] ["find"; "countDocuments"] 1 [Stub.bob]).
  - simpl; lia.
  - reflexivity.
  - reflexivity.
Defined.

Lemma has_next_page_iff_documents_remain_witness :
  exists p : page,
    Controller.getUsers (Stub.model [Stub.bob]) PlusZero
      (Some 2) (Some 3) None None []
      = (Ok (Respond 200 (PageBody p)), ["find"; "countDocuments"]) /\
    (has_next_page p = true <-> 2 * 3 < 1) /\
    (has_previous_page p = true <-> 1 < 2).
Proof.
  apply (has_next_page_iff_documents_remain (Stub.model [Stub.bob]) PlusZero
           (Some 2) (Some 3) None None
           [] ["countDocuments"] ["find"; "countDocuments"] 1 [Stub.bob]).
  - simpl; lia.
  - reflexivity.
  - reflexivity.
Defined.

Lemma page_size_zero_by_sign_witness :
  exists p : page,
    Controller.getUsers (Stub.model [Stub.bob]) MinusZero
      (Some 7) (Some 0) None None []
      = (Ok (Respond 200 (PageBody p)), ["find"; "countDocuments"]) /\
    total_pages p = NegInfinity /\
    has_next_page p = false.
Proof.
  apply (page_size_zero_by_sign (Stub.model [Stub.bob]) MinusZero
           (Some 7) None None
           [] ["countDocuments"] ["find"; "countDocuments"] 1 [Stub.bob]).
  - lia.
  - reflexivity.
  - reflexivity.
Defined.

(** ** [getUsers] of the service *)

(** X8.  When both repository calls succeed and the page size is
    positive, [getUsers] of the service returns the users it was given,
    reports as [count] how many there are on this page, and sets
    [has_next_page] exactly when the total count exceeds the documents
    up to and including this page. *)
Theorem service_getUsers_page {S} (usersRepository : Repository.t S)
    (zero : zeroSign) (page_number page_size : Z)
    (sort search : option string)
    (s s1 s2 : S) (users : list userDoc) (total_count : Z) :
  0 < page_size ->
  Repository.getUsers usersRepository page_size
    ((page_number - 1) * page_size) (default "email:asc" sort) search s
    = (Ok users, s1) ->
  Repository.getUserCount usersRepository search s1 = (Ok total_count, s2) ->
  exists p : page,
    Service.getUsers usersRepository zero page_number page_size sort search s
      = (Ok p, s2) /\
    data p = users /\
    count p = Z.of_nat (length users) /\
    (has_next_page p = true <-> page_number * page_size < total_count).
Proof.
  intros Hps Husers Hcount.
  unfold Service.getUsers, try_catch, bind. rewrite Husers, Hcount.
  eexists. split; [reflexivity |]. simpl.
  split; [reflexivity |]. split; [reflexivity |].
  apply lt_ceil_quotient, Hps.
Qed.

Lemma service_getUsers_page_witness :
  exists p : page,
    Service.getUsers (Stub.repository (Some Stub.bob) None false) PlusZero
      1 10 None None []
      = (Ok p, ["getUserCount"; "getUsers"]) /\
    data p = [Stub.bob] /\
    count p = Z.of_nat (length [Stub.bob]) /\
    (has_next_page p = true <-> 1 * 10 < 1).
Proof.
  apply (service_getUsers_page (Stub.repository (Some Stub.bob) None false)
           PlusZero 1 10 None None [] ["getUsers"]
           ["getUserCount"; "getUsers"] [Stub.bob] 1).
  - lia.
  - reflexivity.
  - reflexivity.
Defined.

(** X9.  Whatever [getUsers] of the service throws is a plain error
    whose message is "Failed to get users: " followed by the message of
    the error that one of its two repository calls threw: the listing,
    or the count after a listing that went through. *)
Theorem service_getUsers_wraps_errors {S} (usersRepository : Repository.t S)
    (zero : zeroSign) (page_number page_size : Z)
    (sort search : option string) (s s' : S) (x : exn) :
  Service.getUsers usersRepository zero page_number page_size sort search s
    = (Raise x, s') ->
  exists cause : exn,
    x = Raised (Error ("Failed to get users: " ++ message_of cause)%string) /\
    (Repository.getUsers usersRepository page_size
       ((page_number - 1) * page_size) (default "email:asc" sort) search s
       = (Raise cause, s') \/
     exists users s1,
       Repository.getUsers usersRepository page_size
         ((page_number - 1) * page_size) (default "email:asc" sort) search s
         = (Ok users, s1) /\
       Repository.getUserCount usersRepository search s1 = (Raise cause, s')).
Proof.
  unfold Service.getUsers, try_catch, bind, throw, ret.
  destruct (Repository.getUsers _ _ _ _ _ s) as [[users | cause] s1].
  - destruct (Repository.getUserCount _ _ s1) as [[total | cause] s2] eqn:Hc.
    + discriminate.
    + intros [= <- <-]. exists cause. split; [reflexivity |]. eauto.
  - intros [= <- <-]. exists cause. split; [reflexivity |]. eauto.
Qed.

Lemma service_getUsers_wraps_errors_witness :
  Service.getUsers (Stub.repository (Some Stub.bob) None true) PlusZero
    1 10 None None []
    = (Raise (Raised (Error "Failed to get users: connection lost")),
       ["getUsers"]) /\
  exists cause : exn,
    Raised (Error "Failed to get users: connection lost")
      = Raised (Error ("Failed to get users: " ++ message_of cause)%string) /\
    (Repository.getUsers (Stub.repository (Some Stub.bob) None true) 10
       ((1 - 1) * 10) (default "email:asc" None) None []
       = (Raise cause, ["getUsers"]) \/
     exists users s1,
       Repository.getUsers (Stub.repository (Some Stub.bob) None true) 10
         ((1 - 1) * 10) (default "email:asc" None) None []
         = (Ok users, s1) /\
       Repository.getUserCount (Stub.repository (Some Stub.bob) None true)
         None s1 = (Raise cause, ["getUsers"])).
Proof.
  split; [reflexivity |].
  apply (service_getUsers_wraps_errors
           (Stub.repository (Some Stub.bob) None true) PlusZero
           1 10 None None [] ["getUsers"]).
  reflexivity.
Defined.

(** ** Handlers *)

Lemma handler_catches {S} (body : Eff S answer) (s : S) :
  exists (a : answer) (s' : S), Controller.handler body s = (Ok a, s').
Proof.
  unfold Controller.handler, try_catch, ret.
  destruct (body s) as [[a | x] s']; eauto.
Qed.

(** X10.  No handler of the users controller lets an exception escape:
    with any collaborators and in any state, each of them ends by
    answering or by calling [next]. *)
Theorem handlers_never_throw {S} (User : Model.t S)
    (usersRepository : Repository.t S) (passwordUtils : Password.t S)
    (id name email password other telp : string)
    (zero : zeroSign) (page_number page_size : option Z)
    (sort search : option string) (balance : Z) (s : S) :
  let ends (h : Eff S answer) := exists a s', h s = (Ok a, s') in
  ends (Controller.getUsers User zero page_number page_size sort search) /\
  ends (Controller.getUser usersRepository id) /\
  ends (Controller.createUser usersRepository passwordUtils
          name email password other) /\
  ends (Controller.updateUser usersRepository id name email) /\
  ends (Controller.deleteUser usersRepository id) /\
  ends (Controller.changePassword usersRepository passwordUtils
          id password other telp) /\
  ends (Controller.createUserMinibank usersRepository passwordUtils
          name email password other balance telp) /\
  ends (Controller.getminibanktelp usersRepository passwordUtils
          email password) /\
  ends (Controller.updateminibanktelp usersRepository id password email telp) /\
  ends (Controller.deleteminibank usersRepository id).
Proof.
  cbv zeta. repeat split; apply handler_catches.
Qed.

Ltac run_handler :=
  cbv beta zeta delta
    [Controller.getUser Controller.createUser Controller.updateUser
     Controller.deleteUser Controller.changePassword
     Controller.createUserMinibank Controller.getminibanktelp
     Controller.updateminibanktelp Controller.deleteminibank
     Controller.handler
     Service.getUser Service.createUser Service.updateUser
     Service.deleteUser Service.emailIsRegistered Service.checkPassword
     Service.changePassword Service.createUserMinibank
     Service.getminibanktelp Service.updateminibanktelp
     Service.deleteminibank
     try_catch bind ret throw].

(** X11.  When the password and its confirmation differ, [createUser],
    [createUserMinibank] and [changePassword] pass the mismatch error to
    [next] without calling any collaborator: the state is untouched. *)
Theorem mismatch_rejected_before_any_call {S}
    (usersRepository : Repository.t S) (passwordUtils : Password.t S)
    (id name email password password_confirm password_old telp : string)
    (balance : Z) (s : S) :
  password <> password_confirm ->
  Controller.createUser usersRepository passwordUtils
    name email password password_confirm s = (Ok (PassOn mismatched), s) /\
  Controller.createUserMinibank usersRepository passwordUtils
    name email password password_confirm balance telp s
    = (Ok (PassOn mismatched), s) /\
  Controller.changePassword usersRepository passwordUtils
    id password_old password password_confirm s = (Ok (PassOn mismatched), s).
Proof.
  intros Hne. apply String.eqb_neq in Hne.
  repeat split; run_handler; rewrite Hne; reflexivity.
Qed.

(** X12.  When the e-mail is already registered, [createUser] and
    [createUserMinibank] pass EMAIL_ALREADY_TAKEN to [next]; the look-up
    of the e-mail is the only call made, so nothing is hashed or
    stored. *)
Theorem registered_email_refused {S}
    (usersRepository : Repository.t S) (passwordUtils : Password.t S)
    (name email password telp : string) (balance : Z)
    (owner : userDoc) (s s1 : S) :
  Repository.getUserByEmail usersRepository email s = (Ok (Some owner), s1) ->
  Controller.createUser usersRepository passwordUtils
    name email password password s = (Ok (PassOn emailTaken), s1) /\
  Controller.createUserMinibank usersRepository passwordUtils
    name email password password balance telp s
    = (Ok (PassOn emailTaken), s1).
Proof.
  intros Hreg.
  split; run_handler; rewrite String.eqb_refl; simpl; rewrite Hreg;
    reflexivity.
Qed.

(** X13.  [updateUser] refuses an e-mail that any user has, whichever
    [id] is being updated, and so also when the user keeps the e-mail
    they already have; no update is attempted. *)
Theorem update_refuses_registered_email {S}
    (usersRepository : Repository.t S) (id name email : string)
    (owner : userDoc) (s s1 : S) :
  Repository.getUserByEmail usersRepository email s = (Ok (Some owner), s1) ->
  Controller.updateUser usersRepository id name email s
    = (Ok (PassOn emailTaken), s1).
Proof.
  intros Hreg. run_handler. rewrite Hreg. reflexivity.
Qed.

(** X14.  When the repository fails to store a new user, [createUser]
    reports "Failed to create user" as an unprocessable entity: the
    error the repository raised is dropped. *)
Theorem create_failure_is_masked {S}
    (usersRepository : Repository.t S) (passwordUtils : Password.t S)
    (name email password hashedPassword : string) (cause : exn)
    (s s1 s2 s3 : S) :
  Repository.getUserByEmail usersRepository email s = (Ok None, s1) ->
  Password.hashPassword passwordUtils password s1 = (Ok hashedPassword, s2) ->
  Repository.createUser usersRepository name email hashedPassword s2
    = (Raise cause, s3) ->
  Controller.createUser usersRepository passwordUtils
    name email password password s
    = (Ok (PassOn (Raised (errorResponder UNPROCESSABLE_ENTITY
                       "Failed to create user"))), s3).
Proof.
  intros Hfree Hhash Hstore. run_handler.
  rewrite String.eqb_refl; simpl. rewrite Hfree, Hhash, Hstore. reflexivity.
Qed.

(** X15.  When hashing the password fails, [createUser] passes that very
    error on, and the repository is not asked to store anything. *)
Theorem hash_failure_is_passed_on {S}
    (usersRepository : Repository.t S) (passwordUtils : Password.t S)
    (name email password : string) (cause : exn) (s s1 s2 : S) :
  Repository.getUserByEmail usersRepository email s = (Ok None, s1) ->
  Password.hashPassword passwordUtils password s1 = (Raise cause, s2) ->
  Controller.createUser usersRepository passwordUtils
    name email password password s = (Ok (PassOn cause), s2).
Proof.
  intros Hfree Hhash. run_handler.
  rewrite String.eqb_refl; simpl. rewrite Hfree, Hhash. reflexivity.
Qed.

(** X16.  A successful [createUser] hands the repository the hash that
    [hashPassword] returned for the password, and answers 200 with the
    name and the e-mail. *)
Theorem create_stores_the_hash {S}
    (usersRepository : Repository.t S) (passwordUtils : Password.t S)
    (name email password hashedPassword : string) (s s1 s2 s3 : S) :
  Repository.getUserByEmail usersRepository email s = (Ok None, s1) ->
  Password.hashPassword passwordUtils password s1 = (Ok hashedPassword, s2) ->
  Repository.createUser usersRepository name email hashedPassword s2
    = (Ok tt, s3) ->
  Controller.createUser usersRepository passwordUtils
    name email password password s
    = (Ok (Respond 200 (NameEmailBody name email)), s3).
Proof.
  intros Hfree Hhash Hstore. run_handler.
  rewrite String.eqb_refl; simpl. rewrite Hfree, Hhash, Hstore. reflexivity.
Qed.

(** X17.  [changePassword] for an identifier the repository does not
    know passes a [TypeError] to [next], raised when the password of the
    missing user is read; the one look-up is the only call made. *)
Theorem change_password_of_unknown_user {S}
    (usersRepository : Repository.t S) (passwordUtils : Password.t S)
    (id password_old password_new : string) (s s1 : S) :
  Repository.getUser usersRepository id s = (Ok None, s1) ->
  exists message : string,
    Controller.changePassword usersRepository passwordUtils
      id password_old password_new password_new s
      = (Ok (PassOn (TypeError message)), s1).
Proof.
  intros Hnone. eexists. run_handler.
  rewrite String.eqb_refl; simpl. rewrite Hnone. reflexivity.
Qed.

(** X18.  When the old password does not match, [changePassword] passes
    INVALID_CREDENTIALS "Wrong password" to [next]; nothing is hashed
    and the repository is not asked to change anything. *)
Theorem wrong_old_password_changes_nothing {S}
    (usersRepository : Repository.t S) (passwordUtils : Password.t S)
    (id password_old password_new : string) (user : userDoc) (s s1 s2 : S) :
  Repository.getUser usersRepository id s = (Ok (Some user), s1) ->
  Password.passwordMatched passwordUtils password_old (user_password user) s1
    = (Ok false, s2) ->
  Controller.changePassword usersRepository passwordUtils
    id password_old password_new password_new s
    = (Ok (PassOn (Raised (errorResponder INVALID_CREDENTIALS
                             "Wrong password"))), s2).
Proof.
  intros Huser Hmatch. run_handler.
  rewrite String.eqb_refl; simpl. rewrite Huser, Hmatch. reflexivity.
Qed.

(** X19.  [getminibanktelp] answers an unknown e-mail and a wrong
    password alike: both pass the plain error "Invalid email or
    password" to [next]. *)
Theorem telp_unknown_and_wrong_password_alike {S}
    (usersRepository : Repository.t S) (passwordUtils : Password.t S)
    (unknown password1 known password2 : string) (account : minibankDoc)
    (s s1 t t1 t2 : S) :
  Repository.getUserMinibankByEmail usersRepository unknown s
    = (Ok None, s1) ->
  Repository.getUserMinibankByEmail usersRepository known t
    = (Ok (Some account), t1) ->
  Password.passwordMatched passwordUtils password2
    (minibank_password account) t1 = (Ok false, t2) ->
  fst (Controller.getminibanktelp usersRepository passwordUtils
         unknown password1 s)
    = Ok (PassOn invalidEmailOrPassword) /\
  fst (Controller.getminibanktelp usersRepository passwordUtils
         known password2 t)
    = Ok (PassOn invalidEmailOrPassword).
Proof.
  intros Hunknown Hknown Hmatch.
  split; run_handler.
  - rewrite Hunknown. reflexivity.
  - rewrite Hknown, Hmatch. reflexivity.
Qed.

(** X20.  [getminibanktelp] never answers with its own "Unknown user"
    error: it answers 200 with the phone number of the account, or
    passes on "Invalid email or password", or passes on what the
    repository or the password check threw. *)
Theorem telp_answers {S}
    (usersRepository : Repository.t S) (passwordUtils : Password.t S)
    (email password : string) (s : S) :
  let a := fst (Controller.getminibanktelp usersRepository passwordUtils
                  email password s) in
  (exists account s1,
     Repository.getUserMinibankByEmail usersRepository email s
       = (Ok (Some account), s1) /\
     a = Ok (Respond 200 (TelpBody (Some (minibank_telp account))))) \/
  a = Ok (PassOn invalidEmailOrPassword) \/
  (exists cause, a = Ok (PassOn cause) /\
     (fst (Repository.getUserMinibankByEmail usersRepository email s)
        = Raise cause \/
      exists account s1,
        Repository.getUserMinibankByEmail usersRepository email s
          = (Ok (Some account), s1) /\
        fst (Password.passwordMatched passwordUtils password
               (minibank_password account) s1) = Raise cause)).
Proof.
  run_handler.
  destruct (Repository.getUserMinibankByEmail usersRepository email s)
    as [[[account |] | cause] s1] eqn:Hlookup.
  - destruct (Password.passwordMatched passwordUtils password
                (minibank_password account) s1)
      as [[[|] | cause] s2] eqn:Hmatch; simpl.
    + left. eauto.
    + right. left. reflexivity.
    + right. right. exists cause. split; [reflexivity |].
      right. exists account, s1. rewrite Hmatch. eauto.
  - right. left. reflexivity.
  - right. right. exists cause. simpl. eauto.
Qed.

(** X21.  [updateminibanktelp] answers 200 whenever the look-up of the
    account does not throw: with the new number when the write goes
    through, and with [null] when the account does not exist (nothing is
    written then) or when the write throws. *)
Theorem update_telp_always_answers_200 {S}
    (usersRepository : Repository.t S)
    (id password email telpbaru : string)
    (found : option minibankDoc) (s s1 : S) :
  Repository.getminibanktelp usersRepository id s = (Ok found, s1) ->
  Controller.updateminibanktelp usersRepository id password email telpbaru s =
    match found with
    | None => (Ok (Respond 200 (TelpBody None)), s1)
    | Some _ =>
        match Repository.changetelp usersRepository id telpbaru s1 with
        | (Ok _, s2) => (Ok (Respond 200 (TelpBody (Some telpbaru))), s2)
        | (Raise _, s2) => (Ok (Respond 200 (TelpBody None)), s2)
        end
    end.
Proof.
  intros Hfound. run_handler. rewrite Hfound.
  destruct found as [account |]; [| reflexivity].
  destruct (Repository.changetelp usersRepository id telpbaru s1)
    as [[[] | cause] s2]; reflexivity.
Qed.

(** X22.  When the repository's first [deleteminibank] reports success,
    [deleteminibank] calls it a second time for the same identifier; the
    handler answers 200 whatever the second call returns. *)
Theorem delete_minibank_deletes_twice {S}
    (usersRepository : Repository.t S) (id : string) (again : bool)
    (s s1 s2 : S) :
  Repository.deleteminibank usersRepository id s = (Ok true, s1) ->
  Repository.deleteminibank usersRepository id s1 = (Ok again, s2) ->
  Controller.deleteminibank usersRepository id s
    = (Ok (Respond 200 (IdBody id)), s2).
Proof.
  intros Hfirst Hsecond. run_handler. rewrite Hfirst, Hsecond. reflexivity.
Qed.

(** X23.  When the second [deleteminibank] of the repository throws,
    the handler reports "Failed to delete user" although the first call
    had reported success. *)
Theorem delete_minibank_second_failure {S}
    (usersRepository : Repository.t S) (id : string) (cause : exn)
    (s s1 s2 : S) :
  Repository.deleteminibank usersRepository id s = (Ok true, s1) ->
  Repository.deleteminibank usersRepository id s1 = (Raise cause, s2) ->
  Controller.deleteminibank usersRepository id s
    = (Ok (PassOn (Raised (errorResponder UNPROCESSABLE_ENTITY
                             "Failed to delete user"))), s2).
Proof.
  intros Hfirst Hsecond. run_handler. rewrite Hfirst, Hsecond. reflexivity.
Qed.

(** X24.  [deleteUser] for an identifier the repository does not know
    passes "Failed to delete user" to [next], and the repository is not
    asked to delete anything. *)
Theorem unknown_user_is_not_deleted {S}
    (usersRepository : Repository.t S) (id : string) (s s1 : S) :
  Repository.getUser usersRepository id s = (Ok None, s1) ->
  Controller.deleteUser usersRepository id s
    = (Ok (PassOn (Raised (errorResponder UNPROCESSABLE_ENTITY
                             "Failed to delete user"))), s1).
Proof.
  intros Hnone. run_handler. rewrite Hnone. reflexivity.
Qed.

(** X25.  [getUser] answers 200 with the identifier, the name and the
    e-mail of the user the repository returns, whatever its password
    field holds, and passes "Unknown user" to [next] when there is no
    such user. *)
Theorem get_user_detail {S}
    (usersRepository : Repository.t S) (id : string)
    (found : option userDoc) (s s1 : S) :
  Repository.getUser usersRepository id s = (Ok found, s1) ->
  Controller.getUser usersRepository id s =
    match found with
    | Some user =>
        (Ok (Respond 200
               (DetailBody {| detail_id := user_id user;
                              detail_name := user_name user;
                              detail_email := user_email user |})), s1)
    | None =>
        (Ok (PassOn (Raised (errorResponder UNPROCESSABLE_ENTITY
                               "Unknown user"))), s1)
    end.
Proof.
  intros Hfound. run_handler. rewrite Hfound.
  destruct found; reflexivity.
Qed.

(** X30.  When the old password matches, [changePassword] looks the
    user up a second time, hashes the new password and hands the hash to
    the repository; it answers 200 when the repository reports success
    and passes "Failed to change password" to [next] when it does
    not. *)
Theorem change_password_stores_the_hash {S}
    (usersRepository : Repository.t S) (passwordUtils : Password.t S)
    (id password_old password_new hashedPassword : string)
    (user user' : userDoc) (changeSuccess : bool) (s s1 s2 s3 s4 s5 : S) :
  Repository.getUser usersRepository id s = (Ok (Some user), s1) ->
  Password.passwordMatched passwordUtils password_old (user_password user) s1
    = (Ok true, s2) ->
  Repository.getUser usersRepository id s2 = (Ok (Some user'), s3) ->
  Password.hashPassword passwordUtils password_new s3
    = (Ok hashedPassword, s4) ->
  Repository.changePassword usersRepository id hashedPassword s4
    = (Ok changeSuccess, s5) ->
  Controller.changePassword usersRepository passwordUtils
    id password_old password_new password_new s =
    (Ok (if changeSuccess then Respond 200 (IdBody id)
         else PassOn (Raised (errorResponder UNPROCESSABLE_ENTITY
                                "Failed to change password"))),
     s5).
Proof.
  intros Huser Hmatch Hagain Hhash Hchange. run_handler.
  rewrite String.eqb_refl; simpl.
  rewrite Huser, Hmatch; simpl. rewrite Hagain, Hhash, Hchange.
  destruct changeSuccess; reflexivity.
Qed.

Lemma change_password_stores_the_hash_witness :
  Controller.changePassword (Stub.repository (Some Stub.bob) None false)
    Stub.passwordUtils "u1" "hunter2" "new" "new" []
    = (Ok (Respond 200 (IdBody "u1")),
       ["changePassword"; "hashPassword"; "getUser"; "passwordMatched";
        "getUser"]).
Proof.
  apply (change_password_stores_the_hash
           (Stub.repository (Some Stub.bob) None false) Stub.passwordUtils
           "u1" "hunter2" "new" "#new" Stub.bob Stub.bob true
           [] ["getUser"] ["passwordMatched"; "getUser"]
           ["getUser"; "passwordMatched"; "getUser"]
           ["hashPassword"; "getUser"; "passwordMatched"; "getUser"]
           ["changePassword"; "hashPassword"; "getUser"; "passwordMatched";
            "getUser"]).
  - reflexivity.
  - reflexivity.
  - reflexivity.
  - reflexivity.
  - reflexivity.
Defined.

(** ** The handlers at work *)

Lemma mismatch_rejected_before_any_call_witness :
  Controller.createUser (Stub.repository None None false) Stub.passwordUtils
    "Bob" "b@x.com" "hunter2" "hunter3" [] = (Ok (PassOn mismatched), []) /\
  Controller.createUserMinibank (Stub.repository None None false)
    Stub.passwordUtils "Bob" "b@x.com" "hunter2" "hunter3" 100 "0811" []
    = (Ok (PassOn mismatched), []) /\
  Controller.changePassword (Stub.repository None None false)
    Stub.passwordUtils "u1" "old" "hunter2" "hunter3" []
    = (Ok (PassOn mismatched), []).
Proof.
  apply (mismatch_rejected_before_any_call (Stub.repository None None false)
           Stub.passwordUtils "u1" "Bob" "b@x.com" "hunter2" "hunter3" "old"
           "0811" 100 []).
  discriminate.
Defined.

Lemma registered_email_refused_witness :
  Controller.createUser (Stub.repository (Some Stub.bob) None false)
    Stub.passwordUtils "Rob" "b@x.com" "pw" "pw" []
    = (Ok (PassOn emailTaken), ["getUserByEmail"]) /\
  Controller.createUserMinibank (Stub.repository (Some Stub.bob) None false)
    Stub.passwordUtils "Rob" "b@x.com" "pw" "pw" 5 "0812" []
    = (Ok (PassOn emailTaken), ["getUserByEmail"]).
Proof.
  apply (registered_email_refused (Stub.repository (Some Stub.bob) None false)
           Stub.passwordUtils "Rob" "b@x.com" "pw" "0812" 5 Stub.bob
           [] ["getUserByEmail"]).
  reflexivity.
Defined.

(** Bob renames himself and keeps his e-mail. *)
Lemma update_refuses_registered_email_witness :
  Controller.updateUser (Stub.repository (Some Stub.bob) None false)
    "u1" "Robert" "b@x.com" [] = (Ok (PassOn emailTaken), ["getUserByEmail"]).
Proof.
  apply (update_refuses_registered_email
           (Stub.repository (Some Stub.bob) None false)
           "u1" "Robert" "b@x.com" Stub.bob [] ["getUserByEmail"]).
  reflexivity.
Defined.

Lemma create_failure_is_masked_witness :
  Controller.createUser (Stub.repository None None true) Stub.passwordUtils
    "Bob" "b@x.com" "hunter2" "hunter2" []
    = (Ok (PassOn (Raised (errorResponder UNPROCESSABLE_ENTITY
                             "Failed to create user"))),
       ["createUser"; "hashPassword"; "getUserByEmail"]).
Proof.
  apply (create_failure_is_masked (Stub.repository None None true)
           Stub.passwordUtils "Bob" "b@x.com" "hunter2" "#hunter2"
           (Raised (Error "connection lost"))
           [] ["getUserByEmail"] ["hashPassword"; "getUserByEmail"]).
  - reflexivity.
  - reflexivity.
  - reflexivity.
Defined.

Lemma hash_failure_is_passed_on_witness :
  Controller.createUser (Stub.repository None None false)
    Stub.brokenPasswordUtils "Bob" "b@x.com" "hunter2" "hunter2" []
    = (Ok (PassOn (Raised (Error "out of entropy"))),
       ["hashPassword"; "getUserByEmail"]).
Proof.
  apply (hash_failure_is_passed_on (Stub.repository None None false)
           Stub.brokenPasswordUtils "Bob" "b@x.com" "hunter2"
           (Raised (Error "out of entropy")) [] ["getUserByEmail"]).
  - reflexivity.
  - reflexivity.
Defined.

Lemma create_stores_the_hash_witness :
  Controller.createUser (Stub.repository None None false) Stub.passwordUtils
    "Bob" "b@x.com" "hunter2" "hunter2" []
    = (Ok (Respond 200 (NameEmailBody "Bob" "b@x.com")),
       ["createUser"; "hashPassword"; "getUserByEmail"]).
Proof.
  apply (create_stores_the_hash (Stub.repository None None false)
           Stub.passwordUtils "Bob" "b@x.com" "hunter2" "#hunter2"
           [] ["getUserByEmail"] ["hashPassword"; "getUserByEmail"]).
  - reflexivity.
  - reflexivity.
  - reflexivity.
Defined.

Lemma change_password_of_unknown_user_witness :
  exists message : string,
    Controller.changePassword (Stub.repository None None false)
      Stub.passwordUtils "u9" "old" "new" "new" []
      = (Ok (PassOn (TypeError message)), ["getUser"]).
Proof.
  apply (change_password_of_unknown_user (Stub.repository None None false)
           Stub.passwordUtils "u9" "old" "new" [] ["getUser"]).
  reflexivity.
Defined.

Lemma wrong_old_password_changes_nothing_witness :
  Controller.changePassword (Stub.repository (Some Stub.bob) None false)
    Stub.passwordUtils "u1" "guess" "new" "new" []
    = (Ok (PassOn (Raised (errorResponder INVALID_CREDENTIALS
                             "Wrong password"))),
       ["passwordMatched"; "getUser"]).
Proof.
  apply (wrong_old_password_changes_nothing
           (Stub.repository (Some Stub.bob) None false) Stub.passwordUtils
           "u1" "guess" "new" Stub.bob [] ["getUser"]).
  - reflexivity.
  - reflexivity.
Defined.

Lemma telp_unknown_and_wrong_password_alike_witness :
  fst (Controller.getminibanktelp
         (Stub.repository None (Some Stub.bobAccount) false)
         Stub.passwordUtils "z@x.com" "hunter2" [])
    = Ok (PassOn invalidEmailOrPassword) /\
  fst (Controller.getminibanktelp
         (Stub.repository None (Some Stub.bobAccount) false)
         Stub.passwordUtils "b@x.com" "guess" [])
    = Ok (PassOn invalidEmailOrPassword).
Proof.
  apply (telp_unknown_and_wrong_password_alike
           (Stub.repository None (Some Stub.bobAccount) false)
           Stub.passwordUtils "z@x.com" "hunter2" "b@x.com" "guess"
           Stub.bobAccount
           [] ["getUserMinibankByEmail"]
           [] ["getUserMinibankByEmail"]
           ["passwordMatched"; "getUserMinibankByEmail"]).
  - reflexivity.
  - reflexivity.
  - reflexivity.
Defined.

Lemma update_telp_always_answers_200_witness :
  Controller.updateminibanktelp (Stub.repository None None false)
    "m9" "anything" "z@x.com" "0899" []
    = (Ok (Respond 200 (TelpBody None)), ["getminibanktelp"]).
Proof.
  apply (update_telp_always_answers_200 (Stub.repository None None false)
           "m9" "anything" "z@x.com" "0899" None [] ["getminibanktelp"]).
  reflexivity.
Defined.

Lemma delete_minibank_deletes_twice_witness :
  Controller.deleteminibank
    (Stub.repository None (Some Stub.bobAccount) false) "m1" []
    = (Ok (Respond 200 (IdBody "m1")), ["deleteminibank"; "deleteminibank"]).
Proof.
  apply (delete_minibank_deletes_twice
           (Stub.repository None (Some Stub.bobAccount) false) "m1" true
           [] ["deleteminibank"] ["deleteminibank"; "deleteminibank"]).
  - reflexivity.
  - reflexivity.
Defined.

Lemma delete_minibank_second_failure_witness :
  Controller.deleteminibank
    (Stub.deletingOnce (Stub.repository None (Some Stub.bobAccount) false))
    "m1" []
    = (Ok (PassOn (Raised (errorResponder UNPROCESSABLE_ENTITY
                             "Failed to delete user"))),
       ["deleteminibank"; "deleteminibank"]).
Proof.
  apply (delete_minibank_second_failure
           (Stub.deletingOnce
              (Stub.repository None (Some Stub.bobAccount) false))
           "m1" (Raised (Error "no such account"))
           [] ["deleteminibank"] ["deleteminibank"; "deleteminibank"]).
  - reflexivity.
  - reflexivity.
Defined.

Lemma unknown_user_is_not_deleted_witness :
  Controller.deleteUser (Stub.repository None None false) "u9" []
    = (Ok (PassOn (Raised (errorResponder UNPROCESSABLE_ENTITY
                             "Failed to delete user"))), ["getUser"]).
Proof.
  apply (unknown_user_is_not_deleted (Stub.repository None None false)
           "u9" [] ["getUser"]).
  reflexivity.
Defined.

Lemma get_user_detail_witness :
  Controller.getUser (Stub.repository (Some Stub.bob) None false) "u1" []
    = (Ok (Respond 200
             (DetailBody {| detail_id := "u1";
                            detail_name := "Bob";
                            detail_email := "b@x.com" |})), ["getUser"]).
Proof.
  apply (get_user_detail (Stub.repository (Some Stub.bob) None false)
           "u1" (Some Stub.bob) [] ["getUser"]).
  reflexivity.
Defined.

End UsersFacts.

(** * More on [login] *)

(** X26.  A call of [login] for one identifier leaves the stored count
    of every other identifier as it was. *)
Theorem login_leaves_other_identifiers {Body} (svc : service Body)
    (email other password : string) (w : world) :
  other <> email ->
  failedLoginAttempts (snd (login svc email password w)) !! other
    = failedLoginAttempts w !! other.
Proof.
  intros Hne.
  destruct (Z.lt_ge_cases (failureCount w email) 5) as [Hlt | Hge].
  - destruct (svc email password) as [[body|]|e] eqn:Hs.
    + rewrite (login_accepted svc email password w body Hlt Hs); simpl.
      apply lookup_insert_ne. congruence.
    + rewrite (login_rejected svc email password w Hlt Hs); simpl.
      apply lookup_insert_ne. congruence.
    + rewrite (login_throws svc email password w e Hlt Hs). reflexivity.
  - rewrite (login_locked svc email password w Hge). reflexivity.
Qed.

Lemma login_leaves_other_identifiers_witness :
  failedLoginAttempts (snd (login demo "nobody@x.com" "guess" lockedOut))
    !! "a@x.com" = Some 5 /\
  failedLoginAttempts (snd (login demo "nobody@x.com" "guess" lockedOut))
    !! "nobody@x.com" = Some 1 /\
  failedLoginAttempts (snd (login demo "nobody@x.com" "guess" lockedOut))
    !! "a@x.com"
    = failedLoginAttempts lockedOut !! "a@x.com".
Proof.
  split; [vm_compute; reflexivity |].
  split; [vm_compute; reflexivity |].
  apply (login_leaves_other_identifiers demo "nobody@x.com" "a@x.com"
           "guess" lockedOut).
  discriminate.
Defined.

(** *** Lockout with requests in flight *)

Lemma login_after_await_keeps_lockout {Body} (k : inflight) (r : reply Body)
    (email : string) (w : world) :
  inflight_email k <> email ->
  no_timer_for email w ->
  failureCount (snd (login_after_await k r w)) email = failureCount w email /\
  no_timer_for email (snd (login_after_await k r w)).
Proof.
  intros Hne Hno. unfold failureCount, no_timer_for.
  destruct r as [[body |] | e]; simpl.
  - split.
    + rewrite lookup_insert_ne by exact Hne. reflexivity.
    + apply Forall_app. split; [exact Hno |].
      constructor; [exact Hne | constructor].
  - split; [| exact Hno].
    rewrite lookup_insert_ne by exact Hne. reflexivity.
  - split; [reflexivity | exact Hno].
Qed.

Lemma turn_keeps_lockout {Body} (t : turn (Body := Body)) (email : string)
    (s : server) :
  5 <= failureCount (shared s) email ->
  no_timer_for email (shared s) ->
  no_request_for email s ->
  failureCount (shared (turn_exec t s)) email = failureCount (shared s) email /\
  no_timer_for email (shared (turn_exec t s)) /\
  no_request_for email (turn_exec t s).
Proof.
  intros Hlocked Hno Hreq. destruct t as [email' password | i r | dt].
  - unfold turn_exec, login_until_await.
    fold (failureCount (shared s) email').
    destruct (Z.leb_spec 5 (failureCount (shared s) email')) as [_ | Hlt].
    + repeat split; assumption.
    + assert (Hne : email' <> email) by (intros ->; lia).
      repeat split; try assumption.
      unfold no_request_for; simpl. apply Forall_app.
      split; [exact Hreq |]. constructor; [exact Hne | constructor].
  - simpl. destruct (waiting s !! i) as [k |] eqn:Hi.
    + assert (Hne : inflight_email k <> email)
        by exact (proj1 (Forall_lookup _ _) Hreq i k Hi).
      destruct (login_after_await_keeps_lockout k r email (shared s) Hne Hno)
        as [Hc Hn].
      repeat split; simpl; try assumption.
      unfold no_request_for; simpl. apply Forall_delete, Hreq.
    + repeat split; assumption.
  - simpl. destruct (elapse_keeps_lockout email dt (shared s) Hno) as [Hc Hn].
    repeat split; assumption.
Qed.

(** X27.  Once an identifier is locked out, with no callback pending
    for it and no request for it suspended at the [await], it stays
    locked out: however requests (for whatever identifiers), answers of
    the service and waits follow one another, its count does not change
    and a login arriving for it is answered with the lockout error
    before the service is called, even with the right password. *)
Theorem locked_out_for_good {Body} (ts : list (turn (Body := Body)))
    (email password : string) (s : server) :
  5 <= failureCount (shared s) email ->
  no_timer_for email (shared s) ->
  no_request_for email s ->
  failureCount (shared (turns ts s)) email = failureCount (shared s) email /\
  login_until_await (Body := Body) email password (shared (turns ts s))
    = (inl (Next tooManyAttempts), shared (turns ts s)).
Proof.
  intros Hlocked Hno Hreq.
  assert (Hinv : failureCount (shared (turns ts s)) email
                   = failureCount (shared s) email).
  { revert s Hlocked Hno Hreq.
    induction ts as [| t ts IH]; intros s Hlocked Hno Hreq; [reflexivity |].
    unfold turns in *. simpl.
    destruct (turn_keeps_lockout t email s Hlocked Hno Hreq)
      as (Hc & Hn & Hr).
    rewrite IH; [exact Hc | rewrite Hc; exact Hlocked | exact Hn | exact Hr]. }
  split; [exact Hinv |].
  unfold login_until_await.
  fold (failureCount (shared (turns ts s)) email). rewrite Hinv.
  destruct (Z.leb_spec 5 (failureCount (shared s) email)); [reflexivity | lia].
Qed.

Lemma locked_out_for_good_witness :
  let ts : list (turn (Body := Profile)) :=
    [Idle (48 * loginAttemptResetTime);
     Resume 0 (Returns None);
     Arrive "a@x.com" "secret";
     Arrive "nobody@x.com" "secret";
     Resume 0 (Returns (Some (publicProfile alice)))] in
  let s := Server lockedOut [Inflight "nobody@x.com" 0] in
  failureCount (shared (turns ts s)) "a@x.com"
    = failureCount (shared s) "a@x.com" /\
  login_until_await (Body := Profile) "a@x.com" "secret" (shared (turns ts s))
    = (inl (Next tooManyAttempts), shared (turns ts s)).
Proof.
  cbv zeta.
  apply (locked_out_for_good (Body := Profile)
           [Idle (48 * loginAttemptResetTime);
            Resume 0 (Returns None);
            Arrive "a@x.com" "secret";
            Arrive "nobody@x.com" "secret";
            Resume 0 (Returns (Some (publicProfile alice)))]
           "a@x.com" "secret"
           (Server lockedOut [Inflight "nobody@x.com" 0])).
  - vm_compute; discriminate.
  - vm_compute. constructor.
  - repeat constructor. discriminate.
Defined.

(** X28.  A locked-out call gives nothing away about the credentials:
    its response and the state it leaves are the same for every
    password and every credential service. *)
Theorem lockout_hides_credentials {Body} (svc svc' : service Body)
    (email password password' : string) (w : world) :
  5 <= failureCount w email ->
  login svc email password w = login svc' email password' w.
Proof.
  intros Hlocked.
  rewrite (login_locked svc email password w Hlocked).
  rewrite (login_locked svc' email password' w Hlocked).
  reflexivity.
Qed.

Lemma lockout_hides_credentials_witness :
  login demo "a@x.com" "secret" lockedOut
    = login outage "a@x.com" "guess" lockedOut.
Proof.
  apply (lockout_hides_credentials demo outage "a@x.com" "secret" "guess"
           lockedOut).
  vm_compute; discriminate.
Defined.

(** X29.  Two failed logins for the same identifier that overlap, both
    having read the count before either writes it, raise the count by 1
    only. *)
Theorem overlapping_failures_count_once {Body}
    (email password1 password2 : string) (w : world) :
  failureCount w email < 5 ->
  failureCount
    (shared (turns (Body := Body)
               [Arrive email password1; Arrive email password2;
                Resume 0 (Returns None); Resume 0 (Returns None)]
               (Server w [])))
    email
  = failureCount w email + 1.
Proof.
  intros Hlt. unfold turns. simpl.
  unfold login_until_await. simpl. fold (failureCount w email).
  destruct (Z.leb_spec 5 (failureCount w email)) as [Hge | _]; [lia |].
  simpl. fold (failureCount w email).
  destruct (Z.leb_spec 5 (failureCount w email)) as [Hge | _]; [lia |].
  simpl. unfold failureCount at 1. simpl.
  rewrite lookup_insert_eq, or_zero_default. reflexivity.
Qed.

Lemma overlapping_failures_count_once_witness :
  failureCount
    (shared (turns (Body := Profile)
               [Arrive "a@x.com" "guess1"; Arrive "a@x.com" "guess2";
                Resume 0 (Returns None); Resume 0 (Returns None)]
               (Server initial [])))
    "a@x.com"
  = failureCount initial "a@x.com" + 1.
Proof.
  apply (overlapping_failures_count_once (Body := Profile)
           "a@x.com" "guess1" "guess2" initial).
  vm_compute; reflexivity.
Defined.
